(** * Profile hook and favorites screen: a shallow embedding

    The development follows [src/hook/useProfile.tsx] (the [useProfile]
    hook) and the favorites screen (the component [FavoritesScreen]).
    Every callback of the source is an asynchronous function that talks to
    remote collaborators (auth service, record store, object store, device
    picker) and updates React state.

    - A callback is a program [Prog St A]: a finite tree of calls to the
      collaborators and of state updates, ending in a returned value or a
      thrown exception.  [try]/[catch]/[finally] are combinators on it.
    - A callback closes over the values of the render it was created in;
      it takes that render snapshot as its first argument, and only the
      setters act on the live state.
    - [run] executes a program against a handler that answers the calls,
      and records every call with its reply.  Awaited calls run in program
      order; a promise that is not awaited is run at the point where it is
      started, and its rejection is dropped.
    - The collaborators are external.  Most statements quantify over every
      handler; statements about what ends up stored use the reference
      record store of [Backend] and the reference object store of
      [Bucket].

    Beside the hook and the favorites screen, the profile screen
    ([src/app/(app)/profile.tsx]) contributes its two title lists and the
    handler of its web file input.  The session lookup and listener that
    the hook installs on mount ([useEffect], lines 16-40) are left out. *)

From Stdlib Require Import ZArith String Ascii List Bool.
From stdpp Require Import base option list strings gmap sorting.

Local Open Scope string_scope.
Local Open Scope Z_scope.
Local Open Scope list_scope.

(** ** Data model *)

Module Profile.
(** A row of [profiles]; [None] is SQL/JS [null]. *)
Record t : Type := mk {
  id : string;
  first_name : option string;
  last_name : option string;
  avatar_url : option string;
  preferred_transport : option string;
  points : Z;
  titles : option (list string);
  selected_title : option string;
  favorites : option (list string);
  updated_at : option string
}.

(** [{ ...prev, avatar_url: publicUrl }] *)
Definition with_avatar_url (publicUrl : string) (prev : t) : t :=
  mk (id prev) (first_name prev) (last_name prev) (Some publicUrl)
     (preferred_transport prev) (points prev) (titles prev)
     (selected_title prev) (favorites prev) (updated_at prev).

(** [{ ...prev, selected_title: title }] *)
Definition with_selected_title (title : string) (prev : t) : t :=
  mk (id prev) (first_name prev) (last_name prev) (avatar_url prev)
     (preferred_transport prev) (points prev) (titles prev)
     (Some title) (favorites prev) (updated_at prev).
End Profile.

Module Title.
Record t : Type := mk { title : string; points_required : Z }.
End Title.

Record User : Type := { user_id : string }.
Record Session : Type := { user : User }.

(** An item of [hubs], [routes] or [stops]. *)
Record Item : Type := { item_id : string; item_name : string }.

Definition Blob : Type := string.
Record File : Type := { file_name : string; file_blob : Blob }.

(** ** Exceptions *)

Definition RemoteError : Type := string.

Inductive Exn : Type :=
| JsError (message : string)          (* [new Error(message)] *)
| TypeError (message : string)        (* raised by the JS runtime *)
| Remote (e : RemoteError).           (* an [error] object of a collaborator *)

(** ** Replies of the collaborators *)

(** [{ data, error, status }] of a record-store query. *)
Record Response (D : Type) : Type := mkResponse {
  data : option D;
  error : option RemoteError;
  status : Z
}.
Arguments mkResponse {D}.
Arguments data {D}.
Arguments error {D}.
Arguments status {D}.

Record AuthSession : Type := {
  auth_session : option Session;
  auth_error : option RemoteError
}.

Inductive PermissionStatus : Type := granted | denied | undetermined.

Record Asset : Type := { uri : string; mimeType : option string }.
Record PickerResult : Type := { canceled : bool; assets : option (list Asset) }.

Record FileObject : Type := { object_name : string }.
Record ListReply : Type := {
  list_data : option (list FileObject);
  list_error : option RemoteError
}.

Record FetchResponse : Type := { ok : bool; statusText : string; body : Blob }.

Record UploadOptions : Type := {
  contentType : option string;
  cacheControl : option string;
  upsert : bool
}.

(** The argument of [.update({...})] on [profiles]. *)
Inductive ProfilePatch : Type :=
| patch_titles (updatedTitles : list string)
| patch_selected_title (title : string)
| patch_favorites (updatedFavorites : list string).

(** ** Calls to the collaborators *)

Inductive Call : Type :=
| auth_getSession
| auth_signOut
| profiles_select_single (columns : string) (id : string)
| profiles_update (patch : ProfilePatch) (id : string)
| profiles_upsert (id : string) (avatar_url : string) (updated_at : string)
| titles_select_ordered
| table_ilike (table : string) (pattern : string)
| storage_list (bucket : string) (path : string)
| storage_remove (bucket : string) (paths : list string)
| storage_upload (bucket : string) (path : string) (blob : Blob) (options : UploadOptions)
| storage_getPublicUrl (bucket : string) (path : string)
| http_fetch (uri : string)
| picker_requestPermissions
| picker_launchImageLibrary
| date_now
| ui_alert (message : string)
| console_error (message : string) (e : Exn).

Definition Reply (c : Call) : Type :=
  match c with
  | auth_getSession => AuthSession
  | auth_signOut => option RemoteError
  | profiles_select_single _ _ => Response Profile.t
  | profiles_update _ _ => Response unit
  | profiles_upsert _ _ _ => Response unit
  | titles_select_ordered => Response (list Title.t)
  | table_ilike _ _ => Response (list Item)
  | storage_list _ _ => ListReply
  | storage_remove _ _ => option RemoteError
  | storage_upload _ _ _ _ => option RemoteError
  | storage_getPublicUrl _ _ => option string
  | http_fetch _ => (Exn + FetchResponse)%type
  | picker_requestPermissions => PermissionStatus
  | picker_launchImageLibrary => PickerResult
  | date_now => string
  | ui_alert _ => unit
  | console_error _ _ => unit
  end.

Record Event : Type := mkEvent { ev_call : Call; ev_reply : Reply ev_call }.

(** The failure a collaborator reports in its reply, if any. *)
Definition reported_failure (ev : Event) : option Exn :=
  match ev with
  | mkEvent auth_getSession r => Remote <$> auth_error r
  | mkEvent auth_signOut r => Remote <$> r
  | mkEvent (profiles_select_single _ _) r => Remote <$> error r
  | mkEvent (profiles_update _ _) r => Remote <$> error r
  | mkEvent (profiles_upsert _ _ _) r => Remote <$> error r
  | mkEvent titles_select_ordered r => Remote <$> error r
  | mkEvent (table_ilike _ _) r => Remote <$> error r
  | mkEvent (storage_list _ _) r => Remote <$> list_error r
  | mkEvent (storage_remove _ _) r => Remote <$> r
  | mkEvent (storage_upload _ _ _ _) r => Remote <$> r
  | mkEvent (http_fetch _) (inl e) => Some e
  | _ => None
  end.

(** Calls that change what the remote side stores. *)
Definition is_write (c : Call) : bool :=
  match c with
  | profiles_update _ _ | profiles_upsert _ _ _
  | storage_remove _ _ | storage_upload _ _ _ _ => true
  | _ => false
  end.

(** ** Programs *)

Inductive Prog (St A : Type) : Type :=
| Ret (a : A)
| Throw (e : Exn)
| SetState (f : St -> St) (k : Prog St A)
| Vis (c : Call) (k : Reply c -> Prog St A).
Arguments Ret {St A}.
Arguments Throw {St A}.
Arguments SetState {St A}.
Arguments Vis {St A}.

Fixpoint bind {St A B} (p : Prog St A) (k : A -> Prog St B) : Prog St B :=
  match p with
  | Ret a => k a
  | Throw e => Throw e
  | SetState f p' => SetState f (bind p' k)
  | Vis c h => Vis c (fun r => bind (h r) k)
  end.

Definition call {St} (c : Call) : Prog St (Reply c) := Vis c Ret.
Definition set_state {St} (f : St -> St) : Prog St unit := SetState f (Ret tt).

(** [try { p } catch (e) { handler e }] *)
Fixpoint try_catch {St A} (p : Prog St A) (handler : Exn -> Prog St A) : Prog St A :=
  match p with
  | Ret a => Ret a
  | Throw e => handler e
  | SetState f p' => SetState f (try_catch p' handler)
  | Vis c h => Vis c (fun r => try_catch (h r) handler)
  end.

(** [try { p } finally { fin }]: [fin] runs on both exits and the exit of
    [p] stands when [fin] completes. *)
Fixpoint try_finally {St A} (p : Prog St A) (fin : Prog St unit) : Prog St A :=
  match p with
  | Ret a => bind fin (fun _ => Ret a)
  | Throw e => bind fin (fun _ => Throw e)
  | SetState f p' => SetState f (try_finally p' fin)
  | Vis c h => Vis c (fun r => try_finally (h r) fin)
  end.

(** A promise that is started and not awaited: its calls and state updates
    happen, its rejection does not reach the caller. *)
Definition not_awaited {St} (p : Prog St unit) : Prog St unit :=
  try_catch p (fun _ => Ret tt).

Declare Scope prog_scope.
Delimit Scope prog_scope with prog.
Notation "x <- c1 ;; c2" := (bind c1 (fun x => c2))
  (at level 100, c1 at next level, right associativity) : prog_scope.
Notation "c1 ;; c2" := (bind c1 (fun _ => c2))
  (at level 100, right associativity) : prog_scope.
Local Open Scope prog_scope.

(** ** Running a program *)

Inductive Outcome (A : Type) : Type :=
| Returned (a : A)
| Thrown (e : Exn).
Arguments Returned {A}.
Arguments Thrown {A}.

Definition Handler (W : Type) : Type := forall c : Call, W -> Reply c * W.

Record Run (St W A : Type) : Type := mkRun {
  outcome : Outcome A;
  final : St;
  world : W;
  trace : list Event
}.
Arguments mkRun {St W A}.
Arguments outcome {St W A}.
Arguments final {St W A}.
Arguments world {St W A}.
Arguments trace {St W A}.

Definition logged {St W A} (ev : Event) (rest : Run St W A) : Run St W A :=
  mkRun (outcome rest) (final rest) (world rest) (ev :: trace rest).

Fixpoint run {St W A} (h : Handler W) (p : Prog St A) (s : St) (w : W) : Run St W A :=
  match p with
  | Ret a => mkRun (Returned a) s w []
  | Throw e => mkRun (Thrown e) s w []
  | SetState f k => run h k (f s) w
  | Vis c k =>
      let r := h c w in
      logged (mkEvent c (fst r)) (run h (k (fst r)) s (snd r))
  end.

(** The calls a run made, in order, and those among them that write. *)
Definition calls {St W A} (r : Run St W A) : list Call := map ev_call (trace r).
Definition writes {St W A} (r : Run St W A) : list Call := List.filter is_write (calls r).

(** ** JavaScript helpers *)

(** [l.includes(x)] on an array of strings *)
Definition includes (l : list string) (x : string) : bool :=
  existsb (String.eqb x) l.

(** [s.startsWith(p)] *)
Definition startsWith (s p : string) : bool := String.prefix p s.

Fixpoint split_pop_from (acc s : string) : string :=
  match s with
  | EmptyString => acc
  | String c s' =>
      if Ascii.eqb c "."%char then split_pop_from "" s'
      else split_pop_from (String.append acc (String c "")) s'
  end.

(** [s.split('.').pop()]: what follows the last dot, all of [s] without one *)
Definition split_pop (s : string) : string := split_pop_from "" s.

(** [session?.user?.id] tested with [!userId]: [undefined] and the empty
    string are falsy *)
Definition truthy (userId : option string) : option string :=
  match userId with
  | None | Some "" => None
  | Some u => Some u
  end.

(** [x || d] on strings: the empty string is falsy *)
Definition or_default (x d : string) : string :=
  if String.eqb x "" then d else x.

(** ** The [useProfile] hook *)

Module UseProfile.

(** The five [useState] cells of the hook. *)
Record State : Type := mkState {
  loading : bool;
  uploading : bool;
  session : option Session;
  profile : option Profile.t;
  titles : list Title.t
}.

Definition setLoading (b : bool) : Prog State unit :=
  set_state (fun s => mkState b (uploading s) (session s) (profile s) (titles s)).
Definition setUploading (b : bool) : Prog State unit :=
  set_state (fun s => mkState (loading s) b (session s) (profile s) (titles s)).
Definition setSession (v : option Session) : Prog State unit :=
  set_state (fun s => mkState (loading s) (uploading s) v (profile s) (titles s)).
(** [setProfile(prev => f prev)] *)
Definition updateProfile (f : option Profile.t -> option Profile.t) : Prog State unit :=
  set_state (fun s => mkState (loading s) (uploading s) (session s) (f (profile s)) (titles s)).
Definition setProfile (v : option Profile.t) : Prog State unit :=
  updateProfile (fun _ => v).
Definition setTitles (v : list Title.t) : Prog State unit :=
  set_state (fun s => mkState (loading s) (uploading s) (session s) (profile s) v).

Definition rethrow {A} (e : Exn) : Prog State A := Throw e.

Definition profile_columns : string :=
  "id, first_name, last_name, avatar_url, preferred_transport, points, titles, selected_title, favorites, updated_at".

(** [getProfile], lines 43-67.  [r] is the render the callback closes over. *)
Definition getProfile (r : State) : Prog State unit :=
  try_finally
    (try_catch
       (setLoading true ;;
        match session r with
        | None => Throw (JsError "No user on the session!")
        | Some sess =>
            let userId := user_id (user sess) in
            resp <- call (profiles_select_single profile_columns userId) ;;
            match error resp with
            | Some e =>
                if negb (status resp =? 406) then Throw (Remote e)
                else match data resp with
                     | Some d => setProfile (Some d)
                     | None => Ret tt
                     end
            | None =>
                match data resp with
                | Some d => setProfile (Some d)
                | None => Ret tt
                end
            end
        end)
       rethrow)
    (setLoading false).

(** The callback of [data.filter(...)], line 93-95: [&&] evaluates its
    right operand only when the left one holds, and [.includes] on a
    [null] array raises. *)
Definition eligible (profileData : Profile.t) (title : Title.t) : Exn + bool :=
  if Title.points_required title <=? Profile.points profileData then
    match Profile.titles profileData with
    | Some unlocked => inr (negb (includes unlocked (Title.title title)))
    | None => inl (TypeError "Cannot read properties of null (reading 'includes')")
    end
  else inr false.

(** [data.filter(cb)] with a callback that may raise *)
Fixpoint filter_raising {A} (cb : A -> Exn + bool) (l : list A) : Exn + list A :=
  match l with
  | [] => inr []
  | x :: l' =>
      match cb x with
      | inl e => inl e
      | inr keep =>
          match filter_raising cb l' with
          | inl e => inl e
          | inr rest => inr (if keep then x :: rest else rest)
          end
      end
  end.

(** [newlyUnlockedTitles], lines 92-96 *)
Definition newlyUnlockedTitles (data : list Title.t) (profileData : Profile.t)
  : Exn + list string :=
  match filter_raising (eligible profileData) data with
  | inl e => inl e
  | inr kept => inr (map Title.title kept)
  end.

(** [profileData.titles || []] *)
Definition titles_or_empty (profileData : Profile.t) : list string :=
  match Profile.titles profileData with
  | Some l => l
  | None => []
  end.

(** [fetchTitles], lines 70-114.  The query for [points, titles] has no
    error check; the update's reply is dropped; [getProfile()] is not
    awaited. *)
Definition fetchTitles (r : State) : Prog State unit :=
  try_catch
    (match session r with
     | None => Throw (JsError "No user session found")
     | Some sess =>
         let userId := user_id (user sess) in
         resp <- call titles_select_ordered ;;
         match error resp with
         | Some e => Throw (Remote e)
         | None =>
             presp <- call (profiles_select_single "points, titles" userId) ;;
             match data presp with
             | Some profileData =>
                 match data resp with
                 | None => Throw (TypeError "Cannot read properties of null (reading 'filter')")
                 | Some rows =>
                     match newlyUnlockedTitles rows profileData with
                     | inl e => Throw e
                     | inr newly =>
                         if (0 <? Z.of_nat (length newly)) then
                           let updatedTitles := (titles_or_empty profileData ++ newly)%list in
                           _ <- call (profiles_update (patch_titles updatedTitles) userId) ;;
                           not_awaited (getProfile r)
                         else Ret tt
                     end
                 end
             | None => Ret tt
             end ;;
             setTitles (default [] (data resp))
         end
     end)
    rethrow.

(** [handleAvatarUpload], lines 117-144 *)
Definition handleAvatarUpload (r : State) (publicUrl : string) : Prog State unit :=
  try_finally
    (try_catch
       (setLoading true ;;
        match session r with
        | None => Throw (JsError "No user session found")
        | Some sess =>
            let userId := user_id (user sess) in
            now <- call date_now ;;
            resp <- call (profiles_upsert userId publicUrl now) ;;
            match error resp with
            | Some updateError => Throw (Remote updateError)
            | None =>
                updateProfile (fun prev =>
                  match prev with
                  | Some p => Some (Profile.with_avatar_url publicUrl p)
                  | None => None
                  end)
            end
        end)
       rethrow)
    (setLoading false).

(** [filePath], lines 177-179: [`${userId}.${fileExt}`] with
    [fileExt = file.uri.split('.').pop()] *)
Definition avatar_path (userId : string) (file : Asset) : string :=
  let fileExt := split_pop (uri file) in
  let fileName := String.append userId (String.append "." fileExt) in
  fileName.

(** [{ contentType: file.mimeType || 'image/jpeg' }], lines 207-209 *)
Definition picker_options (file : Asset) : UploadOptions :=
  {| contentType :=
       Some (match mimeType file with
             | Some m => or_default m "image/jpeg"
             | None => "image/jpeg"
             end);
     cacheControl := None;
     upsert := false |}.

(** [handleImagePicker], lines 147-231 *)
Definition handleImagePicker (r : State) : Prog State unit :=
  try_finally
    (try_catch
       (setUploading true ;;
        perm <- call picker_requestPermissions ;;
        match perm with
        | granted =>
            result <- call picker_launchImageLibrary ;;
            if canceled result then Ret tt
            else
              match assets result with
              | None | Some [] => Throw (JsError "No image selected.")
              | Some (file :: _) =>
                  match session r with
                  | None => Throw (JsError "No user session found")
                  | Some sess =>
                      let userId := user_id (user sess) in
                      let filePath := avatar_path userId file in
                      listed <- call (storage_list "avatars" userId) ;;
                      match list_error listed with
                      | Some listError => Throw (Remote listError)
                      | None =>
                          (match list_data listed with
                           | Some (_ :: _) =>
                               deleteError <- call (storage_remove "avatars" [filePath]) ;;
                               match deleteError with
                               | Some e => Throw (Remote e)
                               | None => Ret tt
                               end
                           | _ => Ret tt
                           end) ;;
                          fetched <- call (http_fetch (uri file)) ;;
                          match fetched with
                          | inl e => Throw e
                          | inr response =>
                              if negb (ok response) then Throw (JsError "Failed to fetch image")
                              else
                                let blob := body response in
                                uploadError <- call (storage_upload "avatars" filePath blob
                                                       (picker_options file)) ;;
                                match uploadError with
                                | Some e => Throw (Remote e)
                                | None =>
                                    publicUrlData <- call (storage_getPublicUrl "avatars" filePath) ;;
                                    match publicUrlData with
                                    | None => Throw (JsError "Failed to get public URL for the uploaded image.")
                                    | Some publicUrl => handleAvatarUpload r publicUrl
                                    end
                                end
                          end
                      end
                  end
              end
        | _ => Ret tt
        end)
       rethrow)
    (setUploading false).

(** [handleSignOut], lines 234-248 *)
Definition handleSignOut (r : State) : Prog State unit :=
  try_finally
    (try_catch
       (setLoading true ;;
        err <- call auth_signOut ;;
        match err with
        | Some e => Throw (Remote e)
        | None => setSession None ;; setProfile None
        end)
       rethrow)
    (setLoading false).

(** [uploadAvatar], lines 251-307.  [uri] is a string or a [File]; the
    empty string is falsy in [!userId]. *)
Definition uploadAvatar (r : State) (uri : string + File) : Prog State unit :=
  try_finally
    (try_catch
       (setUploading true ;;
        match truthy (user_id <$> (user <$> session r)) with
        | None => Throw (JsError "User not authenticated")
        | Some userId =>
            blob <-
              match uri with
              | inl s =>
                  if negb (startsWith s "http") && negb (startsWith s "data:")
                  then Throw (JsError "Invalid image URI")
                  else
                    fetched <- call (http_fetch s) ;;
                    match fetched with
                    | inl e => Throw e
                    | inr response =>
                        if negb (ok response)
                        then Throw (JsError (String.append "Failed to fetch image: " (statusText response)))
                        else Ret (body response)
                    end
              | inr f => Ret (file_blob f)
              end ;;
            timestamp <- call date_now ;;
            let fileExt :=
              match uri with
              | inl s => or_default (split_pop s) "jpg"
              | inr f => or_default (split_pop (file_name f)) "jpg"
              end in
            let fileName :=
              String.append userId
                (String.append "_" (String.append timestamp (String.append "." fileExt))) in
            let filePath := String.append "avatars/" fileName in
            uploadError <- call (storage_upload "avatars" filePath blob
              {| contentType := None; cacheControl := Some "3600"; upsert := true |}) ;;
            match uploadError with
            | Some e => Throw (Remote e)
            | None =>
                publicUrlData <- call (storage_getPublicUrl "avatars" filePath) ;;
                match publicUrlData with
                | None => Throw (JsError "Failed to get public URL for the uploaded image.")
                | Some publicUrl => handleAvatarUpload r publicUrl
                end
            end
        end)
       rethrow)
    (setUploading false).

(** [profile?.titles?.includes(title)]: [undefined] (falsy) when the
    snapshot or its [titles] is [null] *)
Definition unlocked (r : State) (title : string) : bool :=
  match profile r with
  | Some p =>
      match Profile.titles p with
      | Some l => includes l title
      | None => false
      end
  | None => false
  end.

(** [handleSelectTitle], lines 310-335 *)
Definition handleSelectTitle (r : State) (title : string) : Prog State unit :=
  try_finally
    (try_catch
       (setLoading true ;;
        match session r with
        | None => Throw (JsError "No user session found")
        | Some sess =>
            if negb (unlocked r title)
            then Throw (JsError "You have not unlocked this title yet.")
            else
              let userId := user_id (user sess) in
              resp <- call (profiles_update (patch_selected_title title) userId) ;;
              match error resp with
              | Some updateError => Throw (Remote updateError)
              | None =>
                  updateProfile (fun prev =>
                    match prev with
                    | Some p => Some (Profile.with_selected_title title p)
                    | None => None
                    end)
              end
        end)
       rethrow)
    (setLoading false).

End UseProfile.

(** ** The favorites screen *)

Module FavoritesScreen.

Record State : Type := mkState {
  searchQuery : string;
  searchResults : list Item;
  loading : bool;
  userFavorites : list string
}.

Definition setSearchResults (v : list Item) : Prog State unit :=
  set_state (fun s => mkState (searchQuery s) v (loading s) (userFavorites s)).
Definition setLoading (b : bool) : Prog State unit :=
  set_state (fun s => mkState (searchQuery s) (searchResults s) b (userFavorites s)).
Definition setUserFavorites (v : list string) : Prog State unit :=
  set_state (fun s => mkState (searchQuery s) (searchResults s) (loading s) v).

(** [`%${searchQuery}%`] *)
Definition pattern (r : State) : string :=
  String.append "%" (String.append (searchQuery r) "%").

(** The [TypeError] of spreading a variable that holds [null].  Its text
    is the engine's; V8 names the variable. *)
Definition not_iterable (variable : string) : Exn :=
  TypeError (String.append variable " is not iterable").

(** [[...hubs, ...routes, ...stops]], line 109: the operands are spread
    from left to right, and the first that is [null] raises. *)
Definition spread3 (hubs routes stops : option (list Item)) : Exn + list Item :=
  match hubs with
  | None => inl (not_iterable "hubs")
  | Some h =>
      match routes with
      | None => inl (not_iterable "routes")
      | Some ro =>
          match stops with
          | None => inl (not_iterable "stops")
          | Some st => inr (h ++ ro ++ st)%list
          end
      end
  end.

(** [handleSearch], lines 91-115 *)
Definition handleSearch (r : State) : Prog State unit :=
  setLoading true ;;
  try_finally
    (try_catch
       (hubs <- call (table_ilike "hubs" (pattern r)) ;;
        routes <- call (table_ilike "routes" (pattern r)) ;;
        stops <- call (table_ilike "stops" (pattern r)) ;;
        match spread3 (data hubs) (data routes) (data stops) with
        | inl e => Throw e
        | inr results => setSearchResults results
        end)
       (fun e => call (console_error "Error fetching search results:" e)))
    (setLoading false).

(** [userFavorites.filter((favorite) => favorite !== item.id)] *)
Definition without (favs : list string) (x : string) : list string :=
  List.filter (fun favorite => negb (String.eqb favorite x)) favs.

(** [toggleFavorite], lines 117-140.  The session lookup is outside the
    [try]; the reply of the update is dropped. *)
Definition toggleFavorite (r : State) (item : Item) : Prog State unit :=
  got <- call auth_getSession ;;
  match truthy (user_id <$> (user <$> auth_session got)) with
  | None => Ret tt
  | Some userId =>
      try_catch
        (updatedFavorites <-
           (if includes (userFavorites r) (item_id item)
            then call (ui_alert "Removed from favorites!") ;;
                 Ret (without (userFavorites r) (item_id item))
            else call (ui_alert "Added to favorites!") ;;
                 Ret (userFavorites r ++ [item_id item])%list) ;;
         _ <- call (profiles_update (patch_favorites updatedFavorites) userId) ;;
         setUserFavorites updatedFavorites)
        (fun e => call (console_error "Error updating favorites:" e))
  end.

(** [fetchFavorites], lines 76-89, started on mount.  The query has no
    error check; [profile?.favorites || []] is the empty list for a
    missing row and for [favorites = null]. *)
Definition fetchFavorites : Prog State unit :=
  got <- call auth_getSession ;;
  match truthy (user_id <$> (user <$> auth_session got)) with
  | None => Ret tt
  | Some userId =>
      resp <- call (profiles_select_single "favorites" userId) ;;
      setUserFavorites
        (match data resp with
         | Some profile => default [] (Profile.favorites profile)
         | None => []
         end)
  end.

End FavoritesScreen.

(** ** The profile screen *)

Module ProfileScreen.

(** [unlockedTitles] and [lockedTitles], lines 114-115 of the screen, from
    the [titles] and [profile] the hook returns. *)
Definition unlockedTitles (r : UseProfile.State) : list Title.t :=
  List.filter (fun title => UseProfile.unlocked r (Title.title title)) (UseProfile.titles r).

Definition lockedTitles (r : UseProfile.State) : list Title.t :=
  List.filter (fun title => negb (UseProfile.unlocked r (Title.title title)))
    (UseProfile.titles r).

(** The entry of [event.target.files]: a [File] and its [type]. *)
Record InputFile : Type := { input_file : File; input_type : string }.

(** [handleFileInputChange], lines 27-40.  [file] is
    [event.target.files?.[0]]. *)
Definition handleFileInputChange (r : UseProfile.State) (file : option InputFile)
  : Prog UseProfile.State unit :=
  try_catch
    (match file with
     | None => call (ui_alert "Please select a valid image file.")
     | Some f =>
         if negb (startsWith (input_type f) "image/")
         then call (ui_alert "Please select a valid image file.")
         else UseProfile.uploadAvatar r (inr (input_file f))
     end)
    (fun _ => call (ui_alert "Failed to upload image. Please try again.")).

End ProfileScreen.

(** ** The operations of the hook, as one type *)

Inductive Operation : Type :=
| op_getProfile
| op_fetchTitles
| op_handleAvatarUpload (publicUrl : string)
| op_handleImagePicker
| op_handleSignOut
| op_uploadAvatar (uri : string + File)
| op_handleSelectTitle (title : string).

Definition perform (op : Operation) (r : UseProfile.State) : Prog UseProfile.State unit :=
  match op with
  | op_getProfile => UseProfile.getProfile r
  | op_fetchTitles => UseProfile.fetchTitles r
  | op_handleAvatarUpload publicUrl => UseProfile.handleAvatarUpload r publicUrl
  | op_handleImagePicker => UseProfile.handleImagePicker r
  | op_handleSignOut => UseProfile.handleSignOut r
  | op_uploadAvatar uri => UseProfile.uploadAvatar r uri
  | op_handleSelectTitle title => UseProfile.handleSelectTitle r title
  end.

(** Operations that inspect the [error] of every reply they receive.
    [fetchTitles] is the one that does not (lines 85-89 and 101-106). *)
Definition checks_every_reply (op : Operation) : bool :=
  match op with
  | op_fetchTitles => false
  | _ => true
  end.

(** A [profiles] query answered with status 406 (no row for [.single()]),
    which [getProfile] lets pass at line 56. *)
Definition is_status_406 (ev : Event) : bool :=
  match ev with
  | mkEvent (profiles_select_single _ _) r => status r =? 406
  | _ => false
  end.

(** ** A reference record store

    The collaborators are external.  Statements that quantify over every
    [Handler] hold whatever they answer.  For statements about what ends up
    stored, this section fixes the behaviour the source relies on: one row
    of [profiles] per user id, [update] and [upsert] by id, [select ...
    single()] by id, the [titles] table ordered by [points_required]; any
    call of the record store may instead fail and leave the store as it
    was.  Every other collaborator answers through [ambient]. *)

Module Backend.

Record t : Type := mk {
  profiles : gmap string Profile.t;
  titlesTable : list Title.t;
  (** one entry is consumed by each record-store call; [Some e] makes
      that call fail with [e] *)
  faults : list (option RemoteError);
  ambient : forall c : Call, Reply c
}.

Definition next_fault (w : t) : option RemoteError * t :=
  match faults w with
  | [] => (None, w)
  | f :: rest => (f, mk (profiles w) (titlesTable w) rest (ambient w))
  end.

Definition with_profiles (m : gmap string Profile.t) (w : t) : t :=
  mk m (titlesTable w) (faults w) (ambient w).

Definition failed {D} (e : RemoteError) : Response D := mkResponse None (Some e) 500.

Definition apply_patch (patch : ProfilePatch) (row : Profile.t) : Profile.t :=
  match patch with
  | patch_titles l =>
      Profile.mk (Profile.id row) (Profile.first_name row) (Profile.last_name row)
        (Profile.avatar_url row) (Profile.preferred_transport row) (Profile.points row)
        (Some l) (Profile.selected_title row) (Profile.favorites row) (Profile.updated_at row)
  | patch_selected_title title => Profile.with_selected_title title row
  | patch_favorites l =>
      Profile.mk (Profile.id row) (Profile.first_name row) (Profile.last_name row)
        (Profile.avatar_url row) (Profile.preferred_transport row) (Profile.points row)
        (Profile.titles row) (Profile.selected_title row) (Some l) (Profile.updated_at row)
  end.

Definition upsert_row (id avatar_url updated_at : string) (old : option Profile.t) : Profile.t :=
  match old with
  | Some row =>
      Profile.mk (Profile.id row) (Profile.first_name row) (Profile.last_name row)
        (Some avatar_url) (Profile.preferred_transport row) (Profile.points row)
        (Profile.titles row) (Profile.selected_title row) (Profile.favorites row)
        (Some updated_at)
  | None => Profile.mk id None None (Some avatar_url) None 0 None None None (Some updated_at)
  end.

Definition by_points (a b : Title.t) : Prop :=
  Title.points_required a <= Title.points_required b.

#[global] Instance by_points_dec a b : Decision (by_points a b) :=
  Z_le_dec (Title.points_required a) (Title.points_required b).

(** [.order('points_required', { ascending: true })] *)
Definition ordered_titles (w : t) : list Title.t :=
  merge_sort by_points (titlesTable w).

Definition select_single (id : string) (w : t) : Response Profile.t * t :=
  match next_fault w with
  | (Some e, w') => (failed e, w')
  | (None, w') =>
      match profiles w' !! id with
      | Some row => (mkResponse (Some row) None 200, w')
      | None => (mkResponse None (Some "PGRST116") 406, w')
      end
  end.

Definition update (patch : ProfilePatch) (id : string) (w : t) : Response unit * t :=
  match next_fault w with
  | (Some e, w') => (failed e, w')
  | (None, w') =>
      (mkResponse None None 204,
       with_profiles (alter (apply_patch patch) id (profiles w')) w')
  end.

Definition upsert (id avatar_url updated_at : string) (w : t) : Response unit * t :=
  match next_fault w with
  | (Some e, w') => (failed e, w')
  | (None, w') =>
      (mkResponse None None 201,
       with_profiles
         (<[id := upsert_row id avatar_url updated_at (profiles w' !! id)]> (profiles w')) w')
  end.

Definition select_titles (w : t) : Response (list Title.t) * t :=
  match next_fault w with
  | (Some e, w') => (failed e, w')
  | (None, w') => (mkResponse (Some (ordered_titles w')) None 200, w')
  end.

Definition handler : Handler t :=
  fun c =>
    match c return t -> Reply c * t with
    | profiles_select_single _ id => select_single id
    | profiles_update patch id => update patch id
    | profiles_upsert id avatar_url updated_at => upsert id avatar_url updated_at
    | titles_select_ordered => select_titles
    | c' => fun w => (ambient w c', w)
    end.

End Backend.

(** ** A reference object store

    The bucket [avatars] as the list of the keys it holds, beside
    collaborators [ambient] that answer every other call.  [list(folder)]
    answers the objects inside [folder], those whose key is
    [folder/<name>]; [remove] deletes the keys it is given; [upload]
    stores its key, and without [upsert: true] it fails on a key that is
    already there. *)

Module Bucket.

Record t : Type := mk {
  keys : list string;
  ambient : forall c : Call, Reply c
}.

(** [Some name] when [key] is [folder/name]. *)
Fixpoint inside (folder key : string) : option string :=
  match folder, key with
  | EmptyString, String c name => if Ascii.eqb c "/"%char then Some name else None
  | String a folder', String b key' => if Ascii.eqb a b then inside folder' key' else None
  | _, _ => None
  end.

Definition list_folder (folder : string) (w : t) : ListReply :=
  {| list_data :=
       Some (omap (fun key => (fun name => {| object_name := name |}) <$> inside folder key)
               (keys w));
     list_error := None |}.

Definition remove (paths : list string) (w : t) : t :=
  mk (List.filter (fun key => negb (includes paths key)) (keys w)) (ambient w).

Definition upload (path : string) (options : UploadOptions) (w : t)
  : option RemoteError * t :=
  if includes (keys w) path then
    if upsert options then (None, w) else (Some "The resource already exists", w)
  else (None, mk (keys w ++ [path]) (ambient w)).

Definition handler : Handler t :=
  fun c =>
    match c return t -> Reply c * t with
    | storage_list _ folder => fun w => (list_folder folder w, w)
    | storage_remove _ paths => fun w => (None, remove paths w)
    | storage_upload _ path _ options => upload path options
    | c' => fun w => (ambient w c', w)
    end.

End Bucket.

(** ** Vocabulary of the properties *)

Definition uid (sess : Session) : string := user_id (user sess).

(** Titles of [T] whose threshold is at most [P] and that are not in [U],
    in the order of [T]. *)
Definition newly_of (T : list Title.t) (P : Z) (U : list string) : list string :=
  map Title.title
    (List.filter
       (fun x => (Title.points_required x <=? P) && negb (includes U (Title.title x))) T).

(** The unlocked set of the snapshot ([[]] without a snapshot or with
    [titles = null]). *)
Definition unlocked_titles (s : UseProfile.State) : list string :=
  match UseProfile.profile s with
  | Some p => UseProfile.titles_or_empty p
  | None => []
  end.

(** The list [toggleFavorite] computes at lines 123-129. *)
Definition toggled (favs : list string) (x : string) : list string :=
  if includes favs x then FavoritesScreen.without favs x else favs ++ [x].

Definition is_remove (c : Call) : bool :=
  match c with
  | storage_remove _ _ => true
  | _ => false
  end.

Definition is_console_error (c : Call) : bool :=
  match c with
  | console_error _ _ => true
  | _ => false
  end.

(** [selected_title], if set, is a member of [titles]. *)
Definition row_ok (p : Profile.t) : Prop :=
  forall t, Profile.selected_title p = Some t -> t ∈ UseProfile.titles_or_empty p.

(** The snapshot satisfies [row_ok]. *)
Definition snapshot_ok (s : UseProfile.State) : Prop :=
  forall p, UseProfile.profile s = Some p -> row_ok p.

(** Every row a [profiles] query returns satisfies [row_ok]. *)
Definition serves_ok_rows {W} (h : Handler W) : Prop :=
  forall columns id w row,
    data (fst (h (profiles_select_single columns id) w)) = Some row -> row_ok row.

(** The invariant of the profile store: every stored row and the snapshot
    satisfy [row_ok], and the snapshot of a signed-in user never knows a
    title that the user's stored row lacks. *)
Definition consistent (prof : option Profile.t) (sess : option Session)
    (rows : gmap string Profile.t) : Prop :=
  (forall id row, rows !! id = Some row -> row_ok row)
  /\ (forall p, prof = Some p -> row_ok p)
  /\ (forall p se, prof = Some p -> sess = Some se ->
        exists row, rows !! uid se = Some row
                    /\ forall t, t ∈ UseProfile.titles_or_empty p ->
                                 t ∈ UseProfile.titles_or_empty row).

Definition Inv (s : UseProfile.State) (w : Backend.t) : Prop :=
  consistent (UseProfile.profile s) (UseProfile.session s) (Backend.profiles w).

(** The store after one entry of the fault script was consumed. *)
Definition popped (w : Backend.t) : Backend.t := snd (Backend.next_fault w).

(** Calls that look at or delete what the object store already holds. *)
Definition touches_stored_objects (c : Call) : bool :=
  match c with
  | storage_list _ _ | storage_remove _ _ => true
  | _ => false
  end.

Definition is_fetch (c : Call) : bool :=
  match c with
  | http_fetch _ => true
  | _ => false
  end.

(** Some title of [T] is within reach of [P] points. *)
Definition some_eligible (T : list Title.t) (P : Z) : bool :=
  existsb (fun x => Title.points_required x <=? P) T.

(** No character of [s] is a dot. *)
Fixpoint dot_free (s : string) : bool :=
  match s with
  | EmptyString => true
  | String c s' => negb (Ascii.eqb c "."%char) && dot_free s'
  end.

(** ** Sample collaborators and states *)

(** Every collaborator answers and nothing is stored; nobody is signed in
    and the picker is dismissed. *)
Definition quiet : forall c : Call, Reply c :=
  fun c =>
    match c return Reply c with
    | auth_getSession => {| auth_session := None; auth_error := None |}
    | auth_signOut => None
    | profiles_select_single _ _ => mkResponse None None 200
    | profiles_update _ _ => mkResponse None None 204
    | profiles_upsert _ _ _ => mkResponse None None 201
    | titles_select_ordered => mkResponse (Some []) None 200
    | table_ilike _ _ => mkResponse (Some []) None 200
    | storage_list _ _ => {| list_data := Some []; list_error := None |}
    | storage_remove _ _ => None
    | storage_upload _ _ _ _ => None
    | storage_getPublicUrl _ path => Some (String.append "https://cdn.example/" path)
    | http_fetch _ => inr {| ok := true; statusText := "OK"; body := "bytes" |}
    | picker_requestPermissions => granted
    | picker_launchImageLibrary => {| canceled := true; assets := None |}
    | date_now => "2024-01-01T00:00:00.000Z"
    | ui_alert _ => tt
    | console_error _ _ => tt
    end.

(** Every call to the auth service, the record store, the object store and
    the network fails. *)
Definition offline : forall c : Call, Reply c :=
  fun c =>
    match c return Reply c with
    | auth_getSession => {| auth_session := None; auth_error := Some "offline" |}
    | auth_signOut => Some "offline"
    | profiles_select_single _ _ => mkResponse None (Some "offline") 0
    | profiles_update _ _ => mkResponse None (Some "offline") 0
    | profiles_upsert _ _ _ => mkResponse None (Some "offline") 0
    | titles_select_ordered => mkResponse None (Some "offline") 0
    | table_ilike _ _ => mkResponse None (Some "offline") 0
    | storage_list _ _ => {| list_data := None; list_error := Some "offline" |}
    | storage_remove _ _ => Some "offline"
    | storage_upload _ _ _ _ => Some "offline"
    | http_fetch _ => inl (TypeError "Network request failed")
    | c' => quiet c'
    end.

Definition alice : Session := {| user := {| user_id := "u1" |} |}.

(** Alice is signed in at the auth service; the record store rejects
    updates. *)
Definition read_only : forall c : Call, Reply c :=
  fun c =>
    match c return Reply c with
    | auth_getSession => {| auth_session := Some alice; auth_error := None |}
    | profiles_update _ _ => mkResponse None (Some "denied") 403
    | c' => quiet c'
    end.

(** Alice is signed in at the auth service and every call succeeds. *)
Definition signed_in_service : forall c : Call, Reply c :=
  fun c =>
    match c return Reply c with
    | auth_getSession => {| auth_session := Some alice; auth_error := None |}
    | c' => quiet c'
    end.

Definition photo : Asset := {| uri := "file:///photos/me.png"; mimeType := Some "image/png" |}.

(** The picker returns [photo]; the object store lists [listing] under the
    user's id. *)
Definition picking (listing : list FileObject) : forall c : Call, Reply c :=
  fun c =>
    match c return Reply c with
    | picker_launchImageLibrary => {| canceled := false; assets := Some [photo] |}
    | storage_list _ _ => {| list_data := Some listing; list_error := None |}
    | c' => quiet c'
    end.

(** Media access is denied. *)
Definition refusing : forall c : Call, Reply c :=
  fun c =>
    match c return Reply c with
    | picker_requestPermissions => denied
    | c' => quiet c'
    end.

(** A handler without state of its own. *)
Definition answering (f : forall c : Call, Reply c) : Handler unit :=
  fun c w => (f c, w).

(** The scenario of the specification: 50 points, "Rookie" unlocked. *)
Definition row50 : Profile.t :=
  Profile.mk "u1" None None None None 50 (Some ["Rookie"]) None None None.

Definition table3 : list Title.t :=
  [Title.mk "Rookie" 0; Title.mk "Pro" 50; Title.mk "Elite" 100].

Definition signed_in : UseProfile.State :=
  UseProfile.mkState false false (Some alice) (Some row50) [].

Definition signed_out : UseProfile.State :=
  UseProfile.mkState false false None None [].

Definition world50 : Backend.t := Backend.mk {[ "u1" := row50 ]} table3 [] quiet.

Definition hub1 : Item := {| item_id := "hub-1"; item_name := "Central" |}.

Definition favs1 : FavoritesScreen.State :=
  FavoritesScreen.mkState "central" [] false ["hub-1"].

(** The record store answers the title query with [T] and every profile
    query with [row]. *)
Definition serving (T : list Title.t) (row : option Profile.t) : forall c : Call, Reply c :=
  fun c =>
    match c return Reply c with
    | titles_select_ordered => mkResponse (Some T) None 200
    | profiles_select_single _ _ => mkResponse row None 200
    | c' => quiet c'
    end.

(** A row whose [titles] column is [null]. *)
Definition null_titles_row : Profile.t :=
  Profile.mk "u1" None None None None 50 None None None None.

(** Alice is signed in; the table [hubs] answers with [hubs], the other
    tables have no match. *)
Definition finding (hubs : option (list Item)) : forall c : Call, Reply c :=
  fun c =>
    match c return Reply c with
    | table_ilike table _ =>
        if String.eqb table "hubs" then mkResponse hubs None 200
        else mkResponse (Some []) None 200
    | c' => signed_in_service c'
    end.

(** The store of [world50] beside an auth service where Alice is signed in. *)
Definition favorites_world : Backend.t :=
  Backend.mk {[ "u1" := row50 ]} table3 [] signed_in_service.

Definition first_render : FavoritesScreen.State := FavoritesScreen.mkState "" [] false [].

Definition png_file : File := {| file_name := "me.png"; file_blob := "png-bytes" |}.

Definition png_input : ProfileScreen.InputFile :=
  {| ProfileScreen.input_file := png_file; ProfileScreen.input_type := "image/png" |}.

(** The store of [world50] with Alice's [titles] column [null]. *)
Definition world_null_titles : Backend.t :=
  Backend.mk {[ "u1" := null_titles_row ]} table3 [] quiet.

Definition signed_in_null_titles : UseProfile.State :=
  UseProfile.mkState false false (Some alice) (Some null_titles_row) [].

Definition jpg_photo : Asset :=
  {| uri := "file:///photos/me.jpg"; mimeType := Some "image/jpeg" |}.

(** The picker returns [file]; everything else as in [quiet]. *)
Definition picking_file (file : Asset) : forall c : Call, Reply c :=
  fun c =>
    match c return Reply c with
    | picker_launchImageLibrary => {| canceled := false; assets := Some [file] |}
    | c' => quiet c'
    end.

(** ** Proof automation *)

#[local] Arguments truthy : simpl never.
#[local] Arguments startsWith : simpl never.
#[local] Arguments split_pop : simpl never.
#[local] Arguments or_default : simpl never.
#[local] Arguments includes : simpl never.
#[local] Arguments String.append : simpl never.
#[local] Arguments newly_of : simpl never.
#[local] Arguments Inv : simpl never.
#[local] Arguments popped : simpl never.
#[local] Arguments UseProfile.unlocked : simpl never.
#[local] Arguments UseProfile.newlyUnlockedTitles : simpl never.
#[local] Arguments UseProfile.titles_or_empty : simpl never.
#[local] Arguments UseProfile.avatar_path : simpl never.
#[local] Arguments UseProfile.picker_options : simpl never.
#[local] Arguments Backend.select_single : simpl never.
#[local] Arguments Backend.select_titles : simpl never.
#[local] Arguments Backend.update : simpl never.
#[local] Arguments Backend.upsert : simpl never.
#[local] Arguments Backend.ordered_titles : simpl never.
#[local] Arguments Backend.upsert_row : simpl never.
#[local] Arguments Backend.apply_patch : simpl never.

(** Runs a program symbolically against an arbitrary handler [h]: every
    reply is split into its cases, and the equation of each call is kept. *)
Ltac crack h :=
  repeat (simpl;
    match goal with
    | |- context [h ?c ?w] => destruct (h c w) as [? ?] eqn:?
    | |- context [UseProfile.unlocked ?a ?b] => destruct (UseProfile.unlocked a b) eqn:?
    | |- context [startsWith ?a ?b] => destruct (startsWith a b) eqn:?
    | |- context [truthy ?a] => destruct (truthy a) eqn:?
    | |- context [UseProfile.newlyUnlockedTitles ?a ?b] =>
        destruct (UseProfile.newlyUnlockedTitles a b)
    | |- context [0 <? ?n] => destruct (0 <? n)
    | |- context [negb (?a =? ?b)] => destruct (a =? b) eqn:?
    | |- context [match ?x with _ => _ end] => is_var x; destruct x
    | |- context [match ?f ?x with _ => _ end] => is_var x; destruct x
    | |- context [negb ?x] => is_var x; destruct x
    | |- context [negb (?f ?x)] => is_var x; destruct x
    end);
  simpl.

(** Finds the event a membership hypothesis speaks of. *)
Ltac blame :=
  let Hin := fresh "Hin" in
  intros Hin;
  repeat (apply elem_of_cons in Hin as [-> | Hin]; [simpl in *; try congruence|]);
  try (by apply elem_of_nil in Hin).

(** Finds a given event in a concrete trace. *)
Ltac find_event :=
  repeat first [apply list_elem_of_here | apply list_elem_of_further].

Create Rewrite HintDb store.

(** Runs a program symbolically against the reference store. *)
Ltac bcrack :=
  repeat (simpl; autorewrite with store; simpl;
    match goal with
    | |- context [fst (Backend.next_fault ?w)] => destruct (fst (Backend.next_fault w))
    | |- context [Backend.ambient ?w ?c] => destruct (Backend.ambient w c)
    | |- context [match ?m !! ?k with _ => _ end] => destruct (m !! k) eqn:?
    | |- context [UseProfile.unlocked ?a ?b] => destruct (UseProfile.unlocked a b) eqn:?
    | |- context [startsWith ?a ?b] => destruct (startsWith a b) eqn:?
    | |- context [truthy ?a] => destruct (truthy a) eqn:?
    | |- context [UseProfile.newlyUnlockedTitles ?a ?b] =>
        destruct (UseProfile.newlyUnlockedTitles a b)
    | |- context [0 <? ?n] => destruct (0 <? n)
    | |- context [match ?x with _ => _ end] => is_var x; destruct x
    | |- context [match ?f ?x with _ => _ end] => is_var x; destruct x
    | |- context [negb ?x] => is_var x; destruct x
    | |- context [negb (?f ?x)] => is_var x; destruct x
    end);
  simpl; autorewrite with store.

Import UseProfile.

(** ** The JavaScript helpers on sample inputs *)

Example split_pop_extension : split_pop "file:///photos/me.png" = "png".
Proof. reflexivity. Qed.

Example split_pop_last_dot : split_pop "archive.tar.gz" = "gz".
Proof. reflexivity. Qed.

Example split_pop_no_dot : split_pop "README" = "README".
Proof. reflexivity. Qed.

Example split_pop_trailing_dot : or_default (split_pop "photo.") "jpg" = "jpg".
Proof. reflexivity. Qed.

Example startsWith_http : startsWith "https://cdn.example/a.png" "http" = true.
Proof. reflexivity. Qed.

Example startsWith_data : startsWith "data:image/png;base64,AAAA" "data:" = true.
Proof. reflexivity. Qed.

Example startsWith_file : startsWith "file:///photos/me.png" "http" = false.
Proof. reflexivity. Qed.

Example avatar_path_sample : avatar_path "u1" photo = "u1.png".
Proof. reflexivity. Qed.

(** ** Membership and filtering *)

Lemma includes_spec (l : list string) (x : string) : includes l x = true <-> x ∈ l.
Proof.
  unfold includes. rewrite existsb_exists. split.
  - intros (y & Hy & E). apply String.eqb_eq in E. subst. by apply list_elem_of_In.
  - intros H. exists x. split; [by apply list_elem_of_In | apply String.eqb_refl].
Qed.

Lemma includes_false (l : list string) (x : string) : includes l x = false -> x ∉ l.
Proof. intros Hf Hin. apply includes_spec in Hin. congruence. Qed.

Lemma filter_none {A} (f : A -> bool) (l : list A) :
  (forall x, In x l -> f x = false) -> List.filter f l = [].
Proof.
  induction l as [|x l IH]; [done|]. intros H. simpl.
  rewrite (H x (or_introl eq_refl)). apply IH. intros y Hy. apply H. by right.
Qed.

(** ** The unlock evaluator *)

Lemma newlyUnlockedTitles_filter T row U :
  Profile.titles row = Some U ->
  newlyUnlockedTitles T row = inr (newly_of T (Profile.points row) U).
Proof.
  intros HU. unfold newlyUnlockedTitles, newly_of.
  assert (filter_raising (eligible row) T =
          inr (List.filter (fun x => (Title.points_required x <=? Profile.points row)
                                       && negb (includes U (Title.title x))) T)) as ->; [|done].
  induction T as [|x T IH]; [done|].
  simpl. rewrite IH. unfold eligible. rewrite HU.
  by destruct (Title.points_required x <=? Profile.points row); simpl;
    [destruct (includes U (Title.title x))|].
Qed.


Lemma newly_of_elem T P U t :
  t ∈ newly_of T P U <->
  exists x, x ∈ T /\ Title.title x = t /\ Title.points_required x <= P /\ t ∉ U.
Proof.
  unfold newly_of. rewrite list_elem_of_In, in_map_iff. split.
  - intros (x & <- & Hx). apply filter_In in Hx as [Hx Hc].
    apply andb_true_iff in Hc as [Hp Hn]. exists x.
    split; [by apply list_elem_of_In|]. split; [done|]. split; [by apply Z.leb_le|].
    intros Hin. apply includes_spec in Hin. by rewrite Hin in Hn.
  - intros (x & Hx & <- & Hp & Hn). exists x. split; [done|].
    apply filter_In. split; [by apply list_elem_of_In|].
    apply andb_true_iff. split; [by apply Z.leb_le|].
    destruct (includes U (Title.title x)) eqn:E; [|done].
    apply includes_spec in E. contradiction.
Qed.


(** What [fetchTitles] computes and writes once the [titles] query has
    answered [T] and the [points, titles] query a row with unlocked set
    [U], whatever the collaborators answer afterwards. *)
Lemma fetchTitles_with_replies W (h : Handler W) (w w1 w2 : W) (s : State) (sess : Session)
    (tresp : Response (list Title.t)) (presp : Response Profile.t)
    (T : list Title.t) (row : Profile.t) (U : list string) :
  session s = Some sess ->
  h titles_select_ordered w = (tresp, w1) ->
  error tresp = None ->
  data tresp = Some T ->
  h (profiles_select_single "points, titles" (uid sess)) w1 = (presp, w2) ->
  data presp = Some row ->
  Profile.titles row = Some U ->
  newlyUnlockedTitles T row = inr (newly_of T (Profile.points row) U)
  /\ writes (run h (fetchTitles s) s w) =
     match newly_of T (Profile.points row) U with
     | [] => []
     | newly => [profiles_update (patch_titles (U ++ newly)) (uid sess)]
     end
  /\ titles (final (run h (fetchTitles s) s w)) = T.
Proof.
  intros Hs Ht He Hd Hp Hpd HU.
  split; [by apply newlyUnlockedTitles_filter|].
  unfold fetchTitles, not_awaited, getProfile, uid in *. rewrite Hs.
  cbn [run bind call try_catch]. rewrite Ht. cbn [fst snd]. rewrite He.
  cbn [run bind call try_catch]. rewrite Hp. cbn [fst snd]. rewrite Hpd, Hd.
  rewrite (newlyUnlockedTitles_filter T row U HU).
  unfold titles_or_empty. rewrite HU.
  destruct (newly_of T (Profile.points row) U) as [|t0 newly] eqn:En.
  - done.
  - unfold writes, calls. simpl.
    destruct (h (profiles_update _ _) w2) as [ur w3]; simpl.
    destruct (h (profiles_select_single _ _) w3) as [[d [e|] st] w4]; simpl.
    + destruct (negb (st =? 406)); simpl; [done|]. by destruct d.
    + by destruct d.
Qed.

(** X21.  Whenever [fetchTitles] obtains the title table [T] and a
    profile row with points [P] whose [titles] column holds a list [U],
    the list it computes as newly unlocked holds exactly the titles of [T]
    with [points_required <= P] that are not in [U]; its only write, made
    when that list is not empty, stores [U] followed by it.  In the
    scenario with 50 points, "Rookie" unlocked and the table Rookie 0 /
    Pro 50 / Elite 100 it computes ["Pro"] and the stored set becomes
    Rookie, Pro. *)
Theorem fetchTitles_newly_unlocked :
  (forall W (h : Handler W) (w w1 w2 : W) (s : State) (sess : Session)
          (tresp : Response (list Title.t)) (presp : Response Profile.t)
          (T : list Title.t) (row : Profile.t) (U : list string),
      session s = Some sess ->
      h titles_select_ordered w = (tresp, w1) ->
      error tresp = None ->
      data tresp = Some T ->
      h (profiles_select_single "points, titles" (uid sess)) w1 = (presp, w2) ->
      data presp = Some row ->
      Profile.titles row = Some U ->
      exists newly : list string,
        newlyUnlockedTitles T row = inr newly
        /\ (forall t, t ∈ newly <->
              exists x, x ∈ T /\ Title.title x = t
                        /\ Title.points_required x <= Profile.points row /\ t ∉ U)
        /\ writes (run h (fetchTitles s) s w) =
           match newly with
           | [] => []
           | _ => [profiles_update (patch_titles (U ++ newly)) (uid sess)]
           end
        /\ titles (final (run h (fetchTitles s) s w)) = T)
  /\ (let r := run Backend.handler (fetchTitles signed_in) signed_in world50 in
      newlyUnlockedTitles table3 row50 = inr ["Pro"]
      /\ writes r = [profiles_update (patch_titles ["Rookie"; "Pro"]) "u1"]
      /\ Profile.titles <$> Backend.profiles (world r) !! "u1"
         = Some (Some ["Rookie"; "Pro"])).
Proof.
  split; [|by vm_compute].
  intros W h w w1 w2 s sess tresp presp T row U Hs Ht He Hd Hp Hpd HU.
  destruct (fetchTitles_with_replies W h w w1 w2 s sess tresp presp T row U
              Hs Ht He Hd Hp Hpd HU) as (Hn & Hw & Hfin).
  exists (newly_of T (Profile.points row) U).
  split; [exact Hn|]. split; [apply newly_of_elem|]. split; [|exact Hfin].
  rewrite Hw. by destruct (newly_of T (Profile.points row) U).
Qed.

Lemma fetchTitles_newly_unlocked_witness :
  exists newly : list string,
    newlyUnlockedTitles table3 row50 = inr newly
    /\ (forall t, t ∈ newly <->
          exists x, x ∈ table3 /\ Title.title x = t
                    /\ Title.points_required x <= Profile.points row50 /\ t ∉ ["Rookie"])
    /\ writes (run Backend.handler (fetchTitles signed_in) signed_in world50) =
       match newly with
       | [] => []
       | _ => [profiles_update (patch_titles (["Rookie"] ++ newly)) (uid alice)]
       end
    /\ titles (final (run Backend.handler (fetchTitles signed_in) signed_in world50)) = table3.
Proof.
  apply (proj1 fetchTitles_newly_unlocked Backend.t Backend.handler world50 world50 world50
           signed_in alice (mkResponse (Some table3) None 200)
           (mkResponse (Some row50) None 200) table3 row50 ["Rookie"]);
    vm_compute; reflexivity.
Defined.

(** C1, the code at the failing input.  Alice's stored row has 50 points
    and a [titles] column that is [null], which lines 99 and 314 read as
    the empty unlocked set; the titles of the scenario's table within her
    reach and not yet unlocked are Rookie and Pro.  [fetchTitles] computes
    no list there: line 95 calls [includes] on [null], the [TypeError] is
    re-thrown, nothing is written, the stored row keeps [titles = null]
    and the table is not put into the state. *)
Theorem fetchTitles_null_titles_row_raises :
  let r := run Backend.handler (fetchTitles signed_in_null_titles) signed_in_null_titles
             world_null_titles in
  Backend.profiles world_null_titles !! "u1" = Some null_titles_row
  /\ Profile.titles null_titles_row = None
  /\ unlocked_titles signed_in_null_titles = []
  /\ newly_of table3 (Profile.points null_titles_row) [] = ["Rookie"; "Pro"]
  /\ (exists msg, newlyUnlockedTitles table3 null_titles_row = inl (TypeError msg))
  /\ (exists msg, outcome r = Thrown (TypeError msg))
  /\ writes r = []
  /\ titles (final r) = []
  /\ Profile.titles <$> Backend.profiles (world r) !! "u1" = Some None.
Proof.
  do 4 (split; [by vm_compute|]).
  split; [eexists; by vm_compute|]. split; [eexists; by vm_compute|].
  by vm_compute.
Qed.

(** ** The reference store without faults *)

Lemma elem_of_merge_sort_by_points (T : list Title.t) (x : Title.t) :
  x ∈ merge_sort Backend.by_points T <-> x ∈ T.
Proof. by rewrite merge_sort_Permutation. Qed.

Lemma select_titles_ok (w : Backend.t) :
  Backend.faults w = [] ->
  Backend.select_titles w = (mkResponse (Some (Backend.ordered_titles w)) None 200, w).
Proof. intros Hf. unfold Backend.select_titles, Backend.next_fault. by rewrite Hf. Qed.

Lemma select_single_ok (id : string) (w : Backend.t) :
  Backend.faults w = [] ->
  Backend.select_single id w =
  (match Backend.profiles w !! id with
   | Some row => mkResponse (Some row) None 200
   | None => mkResponse None (Some "PGRST116") 406
   end, w).
Proof.
  intros Hf. unfold Backend.select_single, Backend.next_fault. rewrite Hf.
  by destruct (Backend.profiles w !! id).
Qed.

Lemma update_ok (patch : ProfilePatch) (id : string) (w : Backend.t) :
  Backend.faults w = [] ->
  Backend.update patch id w =
  (mkResponse None None 204,
   Backend.with_profiles (alter (Backend.apply_patch patch) id (Backend.profiles w)) w).
Proof. intros Hf. unfold Backend.update, Backend.next_fault. by rewrite Hf. Qed.





(** ** Title selection *)

Lemma unlocked_spec (s : State) (title : string) :
  unlocked s title = true <-> title ∈ unlocked_titles s.
Proof.
  unfold unlocked, unlocked_titles, titles_or_empty.
  destruct (profile s) as [p|]; [destruct (Profile.titles p)|].
  - apply includes_spec.
  - split; [done|]. by intros ?%elem_of_nil.
  - split; [done|]. by intros ?%elem_of_nil.
Qed.

(** C3, as amended.  A title outside the snapshot's unlocked set makes
    [handleSelectTitle] fail with a precondition error ("No user session
    found" without a session, "You have not unlocked this title yet."
    with one), with no remote call and an unchanged snapshot.  A title in
    the set, with a session, makes it send exactly one update of
    [selected_title] and no query; when that update reports no error the
    snapshot's [selected_title] becomes the title, and when it reports one
    the error is re-thrown and the snapshot is unchanged.  A title in the
    set without a session fails with "No user session found" and no
    remote call. *)
Theorem handleSelectTitle_guarded W (h : Handler W) (w : W) (s : State) (title : string) :
  let r := run h (handleSelectTitle s title) s w in
  (title ∉ unlocked_titles s ->
     outcome r = Thrown (match session s with
                         | None => JsError "No user session found"
                         | Some _ => JsError "You have not unlocked this title yet."
                         end)
     /\ calls r = [] /\ profile (final r) = profile s /\ world r = w)
  /\ (title ∈ unlocked_titles s ->
      match session s with
      | None =>
          outcome r = Thrown (JsError "No user session found")
          /\ calls r = [] /\ profile (final r) = profile s /\ world r = w
      | Some sess =>
          calls r = [profiles_update (patch_selected_title title) (uid sess)]
          /\ match error (fst (h (profiles_update (patch_selected_title title) (uid sess)) w)) with
             | None =>
                 outcome r = Returned tt
                 /\ profile (final r) = Profile.with_selected_title title <$> profile s
             | Some e =>
                 outcome r = Thrown (Remote e) /\ profile (final r) = profile s
             end
      end).
Proof.
  intros r. subst r. unfold handleSelectTitle, calls. split.
  - intros Hn. assert (unlocked s title = false) as Hu.
    { destruct (unlocked s title) eqn:E; [|done]. by apply unlocked_spec in E. }
    destruct (session s); simpl; [by rewrite Hu|done].
  - intros Hin. apply unlocked_spec in Hin.
    destruct (session s) as [sess|]; simpl; [|done]. rewrite Hin. simpl.
    unfold uid. destruct (h _ w) as [[d [e|] st] w1]; simpl; [done|].
    split; [done|]. split; [done|]. by destruct (profile s).
Qed.

Lemma handleSelectTitle_guarded_witness :
  (let r := run (answering quiet) (handleSelectTitle signed_in "Elite") signed_in tt in
   outcome r = Thrown (JsError "You have not unlocked this title yet.")
   /\ calls r = [] /\ profile (final r) = Some row50 /\ world r = tt)
  /\ (let r := run (answering quiet) (handleSelectTitle signed_in "Rookie") signed_in tt in
      calls r = [profiles_update (patch_selected_title "Rookie") "u1"]
      /\ outcome r = Returned tt
      /\ profile (final r) = Some (Profile.with_selected_title "Rookie" row50)).
Proof.
  split.
  - apply (proj1 (handleSelectTitle_guarded unit (answering quiet) tt signed_in "Elite")).
    apply includes_false. reflexivity.
  - apply (proj2 (handleSelectTitle_guarded unit (answering quiet) tt signed_in "Rookie")).
    apply includes_spec. reflexivity.
Defined.

(** C3, the statement as given fails: "Rookie" is unlocked, yet with a
    record store that rejects the update the call throws and the snapshot
    keeps its old [selected_title]. *)
Lemma handleSelectTitle_unlocked_write_can_fail :
  let r := run (answering offline) (handleSelectTitle signed_in "Rookie") signed_in tt in
  "Rookie" ∈ unlocked_titles signed_in
  /\ outcome r = Thrown (Remote "offline")
  /\ profile (final r) = Some row50
  /\ Profile.selected_title row50 = None
  /\ profile (final r) <> Some (Profile.with_selected_title "Rookie" row50).
Proof.
  split; [apply includes_spec; reflexivity|].
  split; [reflexivity|]. split; [reflexivity|]. split; [reflexivity|].
  vm_compute. discriminate.
Qed.

(** ** Sign-out *)

(** C4, as amended.  [handleSignOut] makes one call, the remote sign-out,
    and always resets [loading].  When that call succeeds the session and
    the profile snapshot are both cleared; when it fails the error is
    re-thrown and both are left as they were.  It never clears one without
    the other. *)
Theorem handleSignOut_clears_both_or_neither W (h : Handler W) (w : W) (s : State) :
  let r := run h (handleSignOut s) s w in
  calls r = [auth_signOut]
  /\ loading (final r) = false
  /\ match fst (h auth_signOut w) with
     | None =>
         outcome r = Returned tt
         /\ session (final r) = None /\ profile (final r) = None
     | Some e =>
         outcome r = Thrown (Remote e)
         /\ session (final r) = session s /\ profile (final r) = profile s
     end.
Proof.
  intros r. subst r. unfold handleSignOut, calls. simpl.
  by destruct (h auth_signOut w) as [[e|] w1].
Qed.

(** C4, the statement as given fails: when the remote sign-out fails, the
    session and the snapshot are both still there. *)
Lemma handleSignOut_failure_clears_nothing :
  let r := run (answering offline) (handleSignOut signed_in) signed_in tt in
  outcome r = Thrown (Remote "offline")
  /\ session (final r) = Some alice
  /\ profile (final r) = Some row50.
Proof. by vm_compute. Qed.

(** ** The avatar protocol *)

(** C6.  When media access is not granted, [handleImagePicker] returns
    normally after the permission request alone: no call to the object
    store, the network or the record store, and the state is the initial
    one with [uploading] false. *)
Theorem handleImagePicker_permission_denied W (h : Handler W) (w w1 : W) (s : State)
    (perm : PermissionStatus) :
  h picker_requestPermissions w = (perm, w1) ->
  perm <> granted ->
  let r := run h (handleImagePicker s) s w in
  outcome r = Returned tt
  /\ calls r = [picker_requestPermissions]
  /\ world r = w1
  /\ final r = mkState (loading s) false (session s) (profile s) (titles s).
Proof.
  intros Hp Hn r. subst r. unfold handleImagePicker, calls. simpl. rewrite Hp. simpl.
  by destruct perm.
Qed.

Lemma handleImagePicker_permission_denied_witness :
  let r := run (answering refusing) (handleImagePicker signed_in) signed_in tt in
  outcome r = Returned tt
  /\ calls r = [picker_requestPermissions]
  /\ world r = tt
  /\ final r = signed_in.
Proof.
  apply (handleImagePicker_permission_denied unit (answering refusing) tt tt signed_in denied).
  - reflexivity.
  - discriminate.
Defined.

(** X22.  Once a file is picked and [list(userId)] has answered without
    error: if the listing is not empty, the fourth call is the removal of
    the key [<user id>.<extension of the picked file>], which is computed
    from the pick and not taken from the listing; it is the only removal,
    and when it and the download of the picked file succeed the upload
    under the same key is the write that follows it.  If the listing is
    empty or missing, no removal is made at all, the call after the
    listing is the download, and when it succeeds the upload is the first
    write. *)
Theorem handleImagePicker_deletes_before_write W (h : Handler W) (w w1 w2 w3 : W)
    (s : State) (sess : Session) (picked : PickerResult)
    (file : Asset) (more : list Asset) (listed : ListReply) :
  session s = Some sess ->
  h picker_requestPermissions w = (granted, w1) ->
  h picker_launchImageLibrary w1 = (picked, w2) ->
  canceled picked = false ->
  assets picked = Some (file :: more) ->
  h (storage_list "avatars" (uid sess)) w2 = (listed, w3) ->
  list_error listed = None ->
  let filePath := avatar_path (uid sess) file in
  let r := run h (handleImagePicker s) s w in
  match list_data listed with
  | Some (_ :: _) =>
      take 4 (calls r) =
        [picker_requestPermissions; picker_launchImageLibrary;
         storage_list "avatars" (uid sess); storage_remove "avatars" [filePath]]
      /\ List.filter is_remove (calls r) = [storage_remove "avatars" [filePath]]
      /\ (forall w4 w5 response,
            h (storage_remove "avatars" [filePath]) w3 = (None, w4) ->
            h (http_fetch (uri file)) w4 = (inr response, w5) ->
            ok response = true ->
            take 2 (writes r) =
              [storage_remove "avatars" [filePath];
               storage_upload "avatars" filePath (body response) (picker_options file)])
  | _ =>
      take 4 (calls r) =
        [picker_requestPermissions; picker_launchImageLibrary;
         storage_list "avatars" (uid sess); http_fetch (uri file)]
      /\ List.filter is_remove (calls r) = []
      /\ (forall w4 response,
            h (http_fetch (uri file)) w3 = (inr response, w4) ->
            ok response = true ->
            take 1 (writes r) =
              [storage_upload "avatars" filePath (body response) (picker_options file)])
  end.
Proof.
  intros Hs Hperm Hpick Hc Ha Hlist Hle filePath r. subst r filePath.
  unfold handleImagePicker, handleAvatarUpload, writes, calls, uid in *.
  rewrite Hs. simpl. rewrite Hperm. simpl. rewrite Hpick. simpl. rewrite Hc, Ha. simpl.
  rewrite Hlist. simpl. rewrite Hle.
  destruct (list_data listed) as [[|f fs]|]; simpl.
  - split; [done|]. split.
    + crack h; done.
    + intros w4 response Hf Hok. rewrite Hf. simpl. rewrite Hok. simpl. crack h; done.
  - split; [done|]. split.
    + crack h; done.
    + intros w4 w5 response Hr Hf Hok. rewrite Hr. simpl. rewrite Hf. simpl. rewrite Hok.
      simpl. crack h; done.
  - split; [done|]. split.
    + crack h; done.
    + intros w4 response Hf Hok. rewrite Hf. simpl. rewrite Hok. simpl. crack h; done.
Qed.

Lemma handleImagePicker_deletes_before_write_witness :
  (let r := run (answering (picking [{| object_name := "old.png" |}]))
              (handleImagePicker signed_in) signed_in tt in
   take 4 (calls r) =
     [picker_requestPermissions; picker_launchImageLibrary;
      storage_list "avatars" "u1"; storage_remove "avatars" ["u1.png"]]
   /\ List.filter is_remove (calls r) = [storage_remove "avatars" ["u1.png"]]
   /\ take 2 (writes r) =
        [storage_remove "avatars" ["u1.png"];
         storage_upload "avatars" "u1.png" "bytes" (picker_options photo)])
  /\ (let r := run (answering (picking [])) (handleImagePicker signed_in) signed_in tt in
      take 4 (calls r) =
        [picker_requestPermissions; picker_launchImageLibrary;
         storage_list "avatars" "u1"; http_fetch "file:///photos/me.png"]
      /\ List.filter is_remove (calls r) = []
      /\ take 1 (writes r) =
           [storage_upload "avatars" "u1.png" "bytes" (picker_options photo)]).
Proof.
  split.
  - destruct (handleImagePicker_deletes_before_write unit
                (answering (picking [{| object_name := "old.png" |}])) tt tt tt tt
                signed_in alice {| canceled := false; assets := Some [photo] |} photo []
                {| list_data := Some [{| object_name := "old.png" |}]; list_error := None |}
                eq_refl eq_refl eq_refl eq_refl eq_refl eq_refl eq_refl)
      as (H1 & H2 & H3).
    split; [exact H1|]. split; [exact H2|].
    exact (H3 tt tt {| ok := true; statusText := "OK"; body := "bytes" |}
             eq_refl eq_refl eq_refl).
  - destruct (handleImagePicker_deletes_before_write unit
                (answering (picking [])) tt tt tt tt
                signed_in alice {| canceled := false; assets := Some [photo] |} photo []
                {| list_data := Some []; list_error := None |}
                eq_refl eq_refl eq_refl eq_refl eq_refl eq_refl eq_refl)
      as (H1 & H2 & H3).
    split; [exact H1|]. split; [exact H2|].
    exact (H3 tt {| ok := true; statusText := "OK"; body := "bytes" |} eq_refl eq_refl).
Defined.

(** C5, the code at the failing input.  Alice picks [me.jpg] with an
    empty bucket, then [me.png].  The first run stores the key [u1.jpg].
    In the second run a prior avatar of hers exists, but the listing of
    the folder [u1] (line 183) does not contain it, since the key
    [u1.jpg] is not inside that folder: no removal is made, [u1.png] is
    written beside it and both objects stay.  When she picks [me.png]
    once more, the prior object is again not removed, and the upload,
    which has no [upsert], is refused: the run throws and her snapshot
    keeps the old address. *)
Theorem handleImagePicker_prior_avatar_not_deleted :
  let first := run Bucket.handler (handleImagePicker signed_in) signed_in
                 (Bucket.mk [] (picking_file jpg_photo)) in
  let second := run Bucket.handler (handleImagePicker (final first)) (final first)
                  (Bucket.mk (Bucket.keys (world first)) (picking_file photo)) in
  let third := run Bucket.handler (handleImagePicker (final second)) (final second)
                 (world second) in
  (outcome first = Returned tt /\ Bucket.keys (world first) = ["u1.jpg"])
  /\ (outcome second = Returned tt
      /\ take 3 (calls second) =
           [picker_requestPermissions; picker_launchImageLibrary; storage_list "avatars" "u1"]
      /\ List.filter is_remove (calls second) = []
      /\ take 1 (writes second) =
           [storage_upload "avatars" "u1.png" "bytes" (picker_options photo)]
      /\ Bucket.keys (world second) = ["u1.jpg"; "u1.png"])
  /\ (outcome third = Thrown (Remote "The resource already exists")
      /\ List.filter is_remove (calls third) = []
      /\ Bucket.keys (world third) = ["u1.jpg"; "u1.png"]
      /\ profile (final third) = profile (final second)).
Proof. by vm_compute. Qed.

(** C9, as amended.  A string that starts with neither "http" nor "data:"
    makes [uploadAvatar] fail before any call at all, with [uploading]
    reset to false: with 'Invalid image URI' when the session has a user
    id, and with 'User not authenticated' when it has none. *)
Theorem uploadAvatar_rejects_other_uris W (h : Handler W) (w : W) (s : State) (uri : string) :
  startsWith uri "http" = false ->
  startsWith uri "data:" = false ->
  let r := run h (uploadAvatar s (inl uri)) s w in
  outcome r = Thrown (match truthy (user_id <$> (user <$> session s)) with
                      | None => JsError "User not authenticated"
                      | Some _ => JsError "Invalid image URI"
                      end)
  /\ calls r = []
  /\ world r = w
  /\ uploading (final r) = false.
Proof.
  intros H1 H2 r. subst r. unfold uploadAvatar, calls.
  destruct (truthy _) as [userId|]; simpl; [|done].
  by rewrite H1, H2.
Qed.

Lemma uploadAvatar_rejects_other_uris_witness :
  let r := run (answering quiet) (uploadAvatar signed_in (inl "file:///tmp/a.png"))
             signed_in tt in
  outcome r = Thrown (JsError "Invalid image URI")
  /\ calls r = []
  /\ world r = tt
  /\ uploading (final r) = false.
Proof.
  apply (uploadAvatar_rejects_other_uris unit (answering quiet) tt signed_in "file:///tmp/a.png");
    reflexivity.
Defined.

(** C9, the statement as given fails: without a signed-in user the same URI
    is answered with 'User not authenticated', not 'Invalid image URI'. *)
Lemma uploadAvatar_unauthenticated_error :
  let r := run (answering quiet) (uploadAvatar signed_out (inl "file:///tmp/a.png"))
             signed_out tt in
  startsWith "file:///tmp/a.png" "http" = false
  /\ startsWith "file:///tmp/a.png" "data:" = false
  /\ outcome r = Thrown (JsError "User not authenticated")
  /\ outcome r <> Thrown (JsError "Invalid image URI").
Proof.
  split; [reflexivity|]. split; [reflexivity|]. split; [reflexivity|].
  vm_compute. discriminate.
Qed.

(** ** Propagation of failures *)

Lemma checked_failures_rethrown W (h : Handler W) (w : W) (s : State)
    (op : Operation) (ev : Event) (e : Exn) :
  checks_every_reply op = true ->
  ev ∈ trace (run h (perform op s) s w) ->
  reported_failure ev = Some e ->
  is_status_406 ev = false ->
  outcome (run h (perform op s) s w) = Thrown e.
Proof.
  intros Hop. revert ev e.
  destruct op; try discriminate Hop; clear Hop; intros ev e; unfold perform.
  - unfold getProfile. crack h; blame.
  - unfold handleAvatarUpload. crack h; blame.
  - unfold handleImagePicker, handleAvatarUpload. crack h; blame.
  - unfold handleSignOut. crack h; blame.
  - unfold uploadAvatar, handleAvatarUpload. crack h; blame.
  - unfold handleSelectTitle. crack h; blame.
Qed.

Lemma handleSearch_never_throws W (h : Handler W) (w : W) (s : FavoritesScreen.State) :
  outcome (run h (FavoritesScreen.handleSearch s) s w) = Returned tt.
Proof.
  unfold FavoritesScreen.handleSearch, FavoritesScreen.spread3.
  crack h; (done || by destruct r).
Qed.

Lemma toggleFavorite_never_throws W (h : Handler W) (w : W) (s : FavoritesScreen.State)
    (item : Item) :
  outcome (run h (FavoritesScreen.toggleFavorite s item) s w) = Returned tt.
Proof.
  unfold FavoritesScreen.toggleFavorite. crack h; try done.
  all: destruct (includes _ _); crack h; done.
Qed.

(** C7, as amended.  In [getProfile], [handleAvatarUpload],
    [handleImagePicker], [handleSignOut], [uploadAvatar] and
    [handleSelectTitle] every failure a collaborator reports is re-thrown
    to the caller, a [profiles] query answered with status 406 apart;
    [fetchTitles] re-throws a failure of its [titles] query; a denied
    permission makes [handleImagePicker] return without an error.  The
    favorites search and the favorite toggle never throw.  [handleSearch]
    logs nothing when its three replies carry data, and logs the
    [TypeError] of the spread, once, when one of them carries none.
    [toggleFavorite] never logs: it drops the reply of its update, and
    with a session it puts the toggled list into the state whatever that
    reply was. *)
Theorem failures_rethrown_by_hook_swallowed_by_favorites :
  (forall W (h : Handler W) (w : W) (s : State) (op : Operation) (ev : Event) (e : Exn),
      checks_every_reply op = true ->
      ev ∈ trace (run h (perform op s) s w) ->
      reported_failure ev = Some e ->
      is_status_406 ev = false ->
      outcome (run h (perform op s) s w) = Thrown e)
  /\ (forall W (h : Handler W) (w : W) (s : State) (sess : Session) (e : RemoteError),
        session s = Some sess ->
        error (fst (h titles_select_ordered w)) = Some e ->
        outcome (run h (fetchTitles s) s w) = Thrown (Remote e))
  /\ (forall W (h : Handler W) (w : W) (s : State),
        fst (h picker_requestPermissions w) <> granted ->
        outcome (run h (handleImagePicker s) s w) = Returned tt)
  /\ (forall W (h : Handler W) (w w1 w2 w3 : W) (s : FavoritesScreen.State)
             (hubs routes stops : Response (list Item)),
        h (table_ilike "hubs" (FavoritesScreen.pattern s)) w = (hubs, w1) ->
        h (table_ilike "routes" (FavoritesScreen.pattern s)) w1 = (routes, w2) ->
        h (table_ilike "stops" (FavoritesScreen.pattern s)) w2 = (stops, w3) ->
        let r := run h (FavoritesScreen.handleSearch s) s w in
        outcome r = Returned tt
        /\ match data hubs, data routes, data stops with
           | Some _, Some _, Some _ => List.filter is_console_error (calls r) = []
           | _, _, _ =>
               exists msg,
                 List.filter is_console_error (calls r) =
                   [console_error "Error fetching search results:" (TypeError msg)]
           end)
  /\ (forall W (h : Handler W) (w : W) (s : FavoritesScreen.State) (item : Item),
        let r := run h (FavoritesScreen.toggleFavorite s item) s w in
        outcome r = Returned tt
        /\ List.filter is_console_error (calls r) = []
        /\ forall userId,
             truthy (user_id <$> (user <$> auth_session (fst (h auth_getSession w))))
               = Some userId ->
             FavoritesScreen.userFavorites (final r)
               = toggled (FavoritesScreen.userFavorites s) (item_id item)
             /\ writes r =
                  [profiles_update
                     (patch_favorites (toggled (FavoritesScreen.userFavorites s)
                                         (item_id item)))
                     userId]).
Proof.
  split; [exact checked_failures_rethrown|]. split; [|split; [|split]].
  - intros W h w s sess e Hs He. unfold fetchTitles. rewrite Hs. simpl.
    destruct (h titles_select_ordered w) as [resp w1]. simpl in *. by rewrite He.
  - intros W h w s Hp. unfold handleImagePicker. simpl.
    destruct (h picker_requestPermissions w) as [perm w1]. simpl in *. by destruct perm.
  - intros W h w w1 w2 w3 s hubs routes stops Hh Hr Hs r. subst r.
    unfold FavoritesScreen.handleSearch, FavoritesScreen.spread3,
      FavoritesScreen.not_iterable, calls.
    simpl. rewrite Hh. simpl. rewrite Hr. simpl. rewrite Hs. simpl.
    destruct (data hubs), (data routes), (data stops); simpl; try done.
    all: destruct (h (console_error _ _) w3) as [[] w4]; simpl; split; [done|]; by eexists.
  - intros W h w s item r. split; [apply toggleFavorite_never_throws|]. split.
    + subst r. unfold FavoritesScreen.toggleFavorite, calls. crack h; try done.
      all: destruct (includes _ _); crack h; done.
    + intros userId Hu. subst r.
      unfold FavoritesScreen.toggleFavorite, toggled, writes, calls. simpl.
      destruct (h auth_getSession w) as [got w1]. simpl in *. rewrite Hu.
      destruct (includes (FavoritesScreen.userFavorites s) (item_id item)); crack h; done.
Qed.

Lemma failures_rethrown_by_hook_swallowed_by_favorites_witness :
  outcome (run (answering offline) (perform op_handleSignOut signed_in) signed_in tt)
    = Thrown (Remote "offline")
  /\ outcome (run (answering offline) (fetchTitles signed_in) signed_in tt)
    = Thrown (Remote "offline")
  /\ outcome (run (answering refusing) (handleImagePicker signed_in) signed_in tt)
    = Returned tt
  /\ (let r := run (answering offline) (FavoritesScreen.handleSearch favs1) favs1 tt in
      outcome r = Returned tt
      /\ exists msg,
           List.filter is_console_error (calls r) =
             [console_error "Error fetching search results:" (TypeError msg)])
  /\ (let r := run (answering read_only) (FavoritesScreen.toggleFavorite favs1 hub1)
                 favs1 tt in
      FavoritesScreen.userFavorites (final r) = toggled ["hub-1"] "hub-1"
      /\ writes r = [profiles_update (patch_favorites (toggled ["hub-1"] "hub-1")) "u1"]).
Proof.
  split; [|split; [|split; [|split]]].
  - apply (proj1 failures_rethrown_by_hook_swallowed_by_favorites unit (answering offline) tt
             signed_in op_handleSignOut (mkEvent auth_signOut (Some "offline"))).
    + reflexivity.
    + simpl. apply list_elem_of_here.
    + reflexivity.
    + reflexivity.
  - apply (proj1 (proj2 failures_rethrown_by_hook_swallowed_by_favorites) unit
             (answering offline) tt signed_in alice); reflexivity.
  - apply (proj1 (proj2 (proj2 failures_rethrown_by_hook_swallowed_by_favorites)) unit
             (answering refusing) tt signed_in).
    discriminate.
  - exact (proj1 (proj2 (proj2 (proj2 failures_rethrown_by_hook_swallowed_by_favorites)))
             unit (answering offline) tt tt tt tt favs1
             (mkResponse None (Some "offline") 0) (mkResponse None (Some "offline") 0)
             (mkResponse None (Some "offline") 0) eq_refl eq_refl eq_refl).
  - exact (proj2 (proj2 (proj2 (proj2 (proj2 (proj2
             failures_rethrown_by_hook_swallowed_by_favorites))) unit (answering read_only)
             tt favs1 hub1)) "u1" eq_refl).
Defined.

(** C7, the statement as given fails: with every remote call failing, the
    favorites search returns normally although its first query reported a
    failure, and with a record store that rejects updates the favorite
    toggle returns normally and even records the change locally. *)
Lemma favorites_swallow_failures :
  (let r := run (answering offline) (FavoritesScreen.handleSearch favs1) favs1 tt in
   (exists ev, ev ∈ trace r /\ reported_failure ev = Some (Remote "offline"))
   /\ outcome r = Returned tt)
  /\ (let r := run (answering read_only) (FavoritesScreen.toggleFavorite favs1 hub1) favs1 tt in
      (exists ev, ev ∈ trace r /\ reported_failure ev = Some (Remote "denied"))
      /\ outcome r = Returned tt
      /\ FavoritesScreen.userFavorites (final r) = []).
Proof.
  split.
  - split; [|reflexivity].
    exists (mkEvent (table_ilike "hubs" "%central%") (mkResponse None (Some "offline") 0)).
    split; [|reflexivity]. simpl. apply list_elem_of_here.
  - split; [|split; reflexivity].
    exists (mkEvent (profiles_update (patch_favorites []) "u1")
              (mkResponse None (Some "denied") 403)).
    split; [|reflexivity]. vm_compute. apply list_elem_of_further, list_elem_of_further.
    apply list_elem_of_here.
Qed.

(** ** The favorite toggle *)

Lemma without_spec (l : list string) (x y : string) :
  y ∈ FavoritesScreen.without l x <-> y ∈ l /\ y <> x.
Proof.
  unfold FavoritesScreen.without. rewrite !list_elem_of_In, filter_In.
  by rewrite negb_true_iff, String.eqb_neq.
Qed.

Lemma without_absent (l : list string) (x : string) :
  x ∉ l -> FavoritesScreen.without l x = l.
Proof.
  intros Hn. unfold FavoritesScreen.without. induction l as [|y l IH]; [done|]. simpl.
  apply not_elem_of_cons in Hn as [Hne Hn].
  destruct (String.eqb_spec y x) as [->|_]; [done|]. simpl. by rewrite IH.
Qed.

Lemma without_idem (l : list string) (x : string) :
  FavoritesScreen.without (FavoritesScreen.without l x) x = FavoritesScreen.without l x.
Proof. apply without_absent. rewrite without_spec. by intros [_ ?]. Qed.

Lemma toggled_flips (favs : list string) (x : string) : x ∈ toggled favs x <-> x ∉ favs.
Proof.
  unfold toggled. destruct (includes favs x) eqn:Hi.
  - apply includes_spec in Hi. rewrite without_spec. tauto.
  - apply includes_false in Hi. rewrite elem_of_app, list_elem_of_singleton. tauto.
Qed.

Lemma toggled_rest (favs : list string) (x : string) :
  FavoritesScreen.without (toggled favs x) x = FavoritesScreen.without favs x.
Proof.
  unfold toggled. destruct (includes favs x); [apply without_idem|].
  unfold FavoritesScreen.without. rewrite List.filter_app. simpl.
  rewrite String.eqb_refl. simpl. apply app_nil_r.
Qed.

Lemma toggled_others (favs : list string) (x y : string) :
  y <> x -> y ∈ toggled favs x <-> y ∈ favs.
Proof.
  intros Hne. transitivity (y ∈ FavoritesScreen.without (toggled favs x) x).
  - rewrite without_spec. tauto.
  - rewrite toggled_rest, without_spec. tauto.
Qed.

Lemma toggled_twice (favs : list string) (x y : string) :
  y ∈ toggled (toggled favs x) x <-> y ∈ favs.
Proof.
  destruct (decide (y = x)) as [->|Hne].
  - rewrite !toggled_flips. destruct (decide (x ∈ favs)); tauto.
  - by rewrite !toggled_others.
Qed.

Lemma toggleFavorite_run W (h : Handler W) (w : W) (s : FavoritesScreen.State)
    (item : Item) (userId : string) :
  truthy (user_id <$> (user <$> auth_session (fst (h auth_getSession w)))) = Some userId ->
  let r := run h (FavoritesScreen.toggleFavorite s item) s w in
  final r =
    FavoritesScreen.mkState (FavoritesScreen.searchQuery s) (FavoritesScreen.searchResults s)
      (FavoritesScreen.loading s) (toggled (FavoritesScreen.userFavorites s) (item_id item))
  /\ writes r =
     [profiles_update (patch_favorites (toggled (FavoritesScreen.userFavorites s) (item_id item)))
        userId].
Proof.
  intros Hu r. subst r. unfold FavoritesScreen.toggleFavorite, toggled, writes, calls. simpl.
  destruct (h auth_getSession w) as [got w1]. simpl in *. rewrite Hu.
  destruct (includes (FavoritesScreen.userFavorites s) (item_id item)); crack h; done.
Qed.

Lemma toggleFavorite_no_session W (h : Handler W) (w : W) (s : FavoritesScreen.State)
    (item : Item) :
  truthy (user_id <$> (user <$> auth_session (fst (h auth_getSession w)))) = None ->
  let r := run h (FavoritesScreen.toggleFavorite s item) s w in
  final r = s /\ calls r = [auth_getSession].
Proof.
  intros Hu r. subst r. unfold FavoritesScreen.toggleFavorite, calls. simpl.
  destruct (h auth_getSession w) as [got w1]. simpl in *. by rewrite Hu.
Qed.

(** C10, as amended.  When the auth service returns a session with a user
    id, [toggleFavorite] replaces the favorites by the list without the
    item's id if it was there, and by the list with the id appended if it
    was not: membership of that id flips, the other entries keep their
    order and multiplicity, and the one write carries the new list.  A
    second toggle of the same item, again with a session, restores the
    original membership.  Without a session the toggle changes nothing
    and its only call is the session lookup. *)
Theorem toggleFavorite_flips_membership W (h : Handler W) (w : W)
    (s : FavoritesScreen.State) (item : Item) :
  let r := run h (FavoritesScreen.toggleFavorite s item) s w in
  let r2 := run h (FavoritesScreen.toggleFavorite (final r) item) (final r) (world r) in
  let before := FavoritesScreen.userFavorites s in
  let after := FavoritesScreen.userFavorites (final r) in
  match truthy (user_id <$> (user <$> auth_session (fst (h auth_getSession w)))) with
  | None => final r = s /\ calls r = [auth_getSession]
  | Some userId =>
      after = (if includes before (item_id item)
               then FavoritesScreen.without before (item_id item)
               else before ++ [item_id item])
      /\ (item_id item ∈ after <-> item_id item ∉ before)
      /\ FavoritesScreen.without after (item_id item)
         = FavoritesScreen.without before (item_id item)
      /\ (forall x, x <> item_id item -> x ∈ after <-> x ∈ before)
      /\ writes r = [profiles_update (patch_favorites after) userId]
      /\ (forall userId',
            truthy (user_id <$> (user <$> auth_session (fst (h auth_getSession (world r)))))
              = Some userId' ->
            forall x, x ∈ FavoritesScreen.userFavorites (final r2) <-> x ∈ before)
  end.
Proof.
  intros r r2 before after.
  destruct (truthy _) as [userId|] eqn:Hu;
    [|exact (toggleFavorite_no_session W h w s item Hu)].
  destruct (toggleFavorite_run W h w s item userId Hu) as [Hf Hw].
  fold r in Hf, Hw.
  assert (after = toggled before (item_id item)) as Hafter by (subst after; by rewrite Hf).
  rewrite Hafter.
  split; [done|]. split; [apply toggled_flips|]. split; [apply toggled_rest|].
  split; [intros x Hx; by apply toggled_others|]. split; [exact Hw|].
  intros userId' Hu' x.
  destruct (toggleFavorite_run W h (world r) (final r) item userId' Hu') as [Hf2 _].
  fold r2 in Hf2. rewrite Hf2. cbn [FavoritesScreen.userFavorites].
  fold after. rewrite Hafter. apply toggled_twice.
Qed.

Lemma toggleFavorite_flips_membership_witness :
  let r := run (answering signed_in_service) (FavoritesScreen.toggleFavorite favs1 hub1)
             favs1 tt in
  let r2 := run (answering signed_in_service) (FavoritesScreen.toggleFavorite (final r) hub1)
              (final r) (world r) in
  FavoritesScreen.userFavorites (final r) = []
  /\ writes r = [profiles_update (patch_favorites []) "u1"]
  /\ forall x, x ∈ FavoritesScreen.userFavorites (final r2) <-> x ∈ ["hub-1"].
Proof.
  destruct (toggleFavorite_flips_membership unit (answering signed_in_service) tt favs1 hub1)
    as (H1 & _ & _ & _ & H5 & H6).
  split; [exact H1|]. split; [exact H5|]. exact (H6 "u1" eq_refl).
Defined.

(** C10, the statement as given fails: without a session at the auth
    service the toggle changes nothing, so a favorite stays a favorite. *)
Lemma toggleFavorite_without_session :
  let r := run (answering quiet) (FavoritesScreen.toggleFavorite favs1 hub1) favs1 tt in
  item_id hub1 ∈ FavoritesScreen.userFavorites favs1
  /\ item_id hub1 ∈ FavoritesScreen.userFavorites (final r)
  /\ final r = favs1
  /\ writes r = [].
Proof.
  split; [apply includes_spec; reflexivity|].
  split; [apply includes_spec; reflexivity|].
  split; reflexivity.
Qed.

(** ** The invariant of the profile store *)

Lemma profiles_popped (w : Backend.t) : Backend.profiles (popped w) = Backend.profiles w.
Proof. unfold popped, Backend.next_fault. by destruct (Backend.faults w). Qed.

Lemma select_single_eq (id : string) (w : Backend.t) :
  Backend.select_single id w =
  (match fst (Backend.next_fault w) with
   | Some e => Backend.failed e
   | None =>
       match Backend.profiles w !! id with
       | Some row => mkResponse (Some row) None 200
       | None => mkResponse None (Some "PGRST116") 406
       end
   end, popped w).
Proof.
  unfold Backend.select_single, popped, Backend.next_fault.
  destruct (Backend.faults w) as [|[e|] rest]; simpl; by destruct (Backend.profiles w !! id).
Qed.

Lemma update_eq (patch : ProfilePatch) (id : string) (w : Backend.t) :
  Backend.update patch id w =
  match fst (Backend.next_fault w) with
  | Some e => (Backend.failed e, popped w)
  | None =>
      (mkResponse None None 204,
       Backend.with_profiles (alter (Backend.apply_patch patch) id (Backend.profiles w))
         (popped w))
  end.
Proof.
  unfold Backend.update, popped, Backend.next_fault.
  by destruct (Backend.faults w) as [|[e|] rest].
Qed.

Lemma upsert_eq (id url ts : string) (w : Backend.t) :
  Backend.upsert id url ts w =
  match fst (Backend.next_fault w) with
  | Some e => (Backend.failed e, popped w)
  | None =>
      (mkResponse None None 201,
       Backend.with_profiles
         (<[id := Backend.upsert_row id url ts (Backend.profiles w !! id)]> (Backend.profiles w))
         (popped w))
  end.
Proof.
  unfold Backend.upsert, popped, Backend.next_fault.
  by destruct (Backend.faults w) as [|[e|] rest].
Qed.

Lemma select_titles_eq (w : Backend.t) :
  Backend.select_titles w =
  (match fst (Backend.next_fault w) with
   | Some e => Backend.failed e
   | None => mkResponse (Some (Backend.ordered_titles w)) None 200
   end, popped w).
Proof.
  unfold Backend.select_titles, popped, Backend.next_fault.
  by destruct (Backend.faults w) as [|[e|] rest].
Qed.

#[local] Hint Rewrite select_single_eq update_eq upsert_eq select_titles_eq profiles_popped
  : store.

Section Consistent.
Variables (prof : option Profile.t) (sess : option Session) (rows : gmap string Profile.t).
Hypothesis H : consistent prof sess rows.

(** Sign-out clears the whole snapshot. *)
Lemma consistent_cleared : consistent None None rows.
Proof. destruct H as (Hr & _ & _). by split; [|split]. Qed.

(** [getProfile] replaces the snapshot by the stored row. *)
Lemma consistent_loaded id row :
  rows !! id = Some row -> (forall se, sess = Some se -> uid se = id) ->
  consistent (Some row) sess rows.
Proof.
  intros Hrow Hid. destruct H as (Hr & _ & _). split; [done|]. split.
  - intros p [= <-]. by eapply Hr.
  - intros p se [= <-] Hse. exists row. by rewrite (Hid se Hse).
Qed.

(** The avatar upsert touches neither [titles] nor [selected_title]. *)
Lemma consistent_avatar id url ts :
  (forall se, sess = Some se -> uid se = id) ->
  consistent (match prof with
              | Some p => Some (Profile.with_avatar_url url p)
              | None => None
              end) sess
    (<[id := Backend.upsert_row id url ts (rows !! id)]> rows).
Proof.
  intros Hid. destruct H as (Hr & Hp & Hc). split; [|split].
  - intros id' row'. destruct (decide (id = id')) as [<-|Hne].
    + rewrite lookup_insert_eq. intros [= <-].
      destruct (rows !! id) as [row|] eqn:E; [|by intros t].
      intros t Ht. by apply (Hr id row E).
    + rewrite lookup_insert_ne by done. apply Hr.
  - destruct prof as [p|]; [|done]. intros ? [= <-] t Ht. by apply (Hp p).
  - destruct prof as [p|]; [|done]. intros ? se [= <-] Hse.
    destruct (Hc p se eq_refl Hse) as (row & Hrow & Hsub).
    rewrite (Hid se Hse) in *. rewrite lookup_insert_eq, Hrow.
    eexists. split; [done|]. exact Hsub.
Qed.

(** Title selection only writes a member of the unlocked set. *)
Lemma consistent_selected se title :
  sess = Some se ->
  title ∈ match prof with Some p => titles_or_empty p | None => [] end ->
  consistent (match prof with
              | Some p => Some (Profile.with_selected_title title p)
              | None => None
              end) sess
    (alter (Backend.apply_patch (patch_selected_title title)) (uid se) rows).
Proof.
  intros Hse Hin. destruct H as (Hr & Hp & Hc).
  destruct prof as [p|]; [|by apply elem_of_nil in Hin].
  destruct (Hc p se eq_refl Hse) as (row & Hrow & Hsub).
  split; [|split].
  - intros id' row'. destruct (decide (uid se = id')) as [<-|Hne].
    + rewrite lookup_alter_eq, Hrow. intros [= <-] t [= <-]. by apply Hsub.
    + rewrite lookup_alter_ne by done. apply Hr.
  - by intros ? [= <-] t [= <-].
  - intros ? se' [= <-] Hse'. assert (se' = se) as -> by congruence.
    rewrite lookup_alter_eq, Hrow. eexists. split; [done|]. exact Hsub.
Qed.

(** The unlock evaluator only extends [titles]. *)
Lemma consistent_extended se row newly :
  sess = Some se -> rows !! uid se = Some row ->
  consistent prof sess
    (alter (Backend.apply_patch (patch_titles (titles_or_empty row ++ newly))) (uid se) rows).
Proof.
  intros Hse Hrow. destruct H as (Hr & Hp & Hc). split; [|split].
  - intros id' row'. destruct (decide (uid se = id')) as [<-|Hne].
    + rewrite lookup_alter_eq, Hrow. intros [= <-] t Ht.
      apply elem_of_app. left. by apply (Hr (uid se) row Hrow).
    + rewrite lookup_alter_ne by done. apply Hr.
  - done.
  - intros p se' Hpf Hse'. assert (se' = se) as -> by congruence.
    destruct (Hc p se Hpf Hse) as (row0 & Hrow0 & Hsub).
    assert (row0 = row) as -> by congruence.
    rewrite lookup_alter_eq, Hrow. eexists. split; [done|].
    intros t Ht. apply elem_of_app. left. by apply Hsub.
Qed.
End Consistent.

Lemma unlocked_inv (l u : bool) (se : option Session) (p : option Profile.t)
    (t : list Title.t) (title : string) :
  unlocked (mkState l u se p t) title = true ->
  title ∈ match p with Some p' => titles_or_empty p' | None => [] end.
Proof. intros Hu. by apply unlocked_spec in Hu. Qed.

Lemma snapshot_invariant_any_handler W (h : Handler W) (w : W) (s : State) (op : Operation) :
  serves_ok_rows h ->
  snapshot_ok s ->
  snapshot_ok (final (run h (perform op s) s w)).
Proof.
  destruct s as [l u se p t]. unfold snapshot_ok. simpl. intros Hserve Hs.
  destruct op;
    unfold perform, fetchTitles, handleImagePicker, uploadAvatar, handleAvatarUpload,
      handleSignOut, handleSelectTitle, not_awaited, getProfile;
    crack h;
    first
      [ exact Hs
      | by intros ? [=]
      | intros ? [= <-];
        first
          [ match goal with
            | Heq : h (profiles_select_single ?c ?i) ?w0 = _ |- _ =>
                apply (Hserve c i w0); rewrite Heq; reflexivity
            end
          | let x := fresh in let Hx := fresh in
            intros x Hx; exact (Hs _ eq_refl x Hx)
          | match goal with
            | Hu : unlocked _ _ = true |- _ =>
                let x := fresh in
                intros x [= <-]; apply unlocked_inv in Hu; exact Hu
            end ] ].
Qed.

Lemma store_invariant_preserved (op : Operation) (w : Backend.t) (s : State) :
  Inv s w ->
  Inv (final (run Backend.handler (perform op s) s w))
      (world (run Backend.handler (perform op s) s w)).
Proof.
  destruct s as [l u se p t]. unfold Inv. simpl. intros H.
  destruct op;
    unfold perform, fetchTitles, handleImagePicker, uploadAvatar, handleAvatarUpload,
      handleSignOut, handleSelectTitle, not_awaited, getProfile;
    bcrack;
    first
      [ exact H
      | exact (consistent_cleared _ _ _ H)
      | eapply (consistent_loaded _ _ _ H); [eassumption | by intros ? [= <-]]
      | eapply (consistent_avatar _ _ _ H); by intros ? [= <-]
      | eapply (consistent_extended _ _ _ H); [reflexivity | eassumption]
      | eapply consistent_loaded;
          [eapply (consistent_extended _ _ _ H); [reflexivity | eassumption]
          | eassumption | by intros ? [= <-]]
      | match goal with
        | Hu : unlocked _ _ = true |- _ =>
            apply unlocked_inv in Hu;
            first [ by apply elem_of_nil in Hu
                  | eapply (consistent_selected _ _ _ H); [reflexivity | exact Hu] ]
        end ].
Qed.

(** C8.  Every operation of the hook preserves the invariant that
    [selected_title], when set, is a member of [titles].  For the
    snapshot this holds with any collaborators, as long as the rows they
    return satisfy it.  Against the reference store, with any script of
    failing calls, it holds for every stored row and the snapshot
    together (with the auxiliary fact that the snapshot of a signed-in
    user knows no title that the stored row lacks): title selection only
    writes a member of the unlocked set, the unlock evaluator stores the
    old titles followed by the new ones, and sign-out clears the snapshot
    or leaves it. *)
Theorem operations_preserve_selected_title_invariant :
  (forall W (h : Handler W) (w : W) (s : State) (op : Operation),
      serves_ok_rows h ->
      snapshot_ok s ->
      snapshot_ok (final (run h (perform op s) s w)))
  /\ (forall (op : Operation) (w : Backend.t) (s : State),
        Inv s w ->
        Inv (final (run Backend.handler (perform op s) s w))
            (world (run Backend.handler (perform op s) s w))).
Proof. split; [exact snapshot_invariant_any_handler|exact store_invariant_preserved]. Qed.

Lemma signed_in_consistent : Inv signed_in world50.
Proof.
  split; [|split].
  - intros id row Hrow. cbn in Hrow. apply lookup_singleton_Some in Hrow as [_ <-]. by intros t.
  - intros p [= <-]. by intros t.
  - intros p se [= <-] [= <-]. exists row50. split; [by vm_compute|done].
Qed.

Lemma quiet_serves_ok_rows : serves_ok_rows (answering quiet).
Proof. by intros columns id w row. Qed.

Lemma signed_in_snapshot_ok : snapshot_ok signed_in.
Proof. intros p [= <-]. by intros t. Qed.

Lemma operations_preserve_selected_title_invariant_witness :
  snapshot_ok (final (run (answering quiet) (perform (op_handleSelectTitle "Rookie") signed_in)
                        signed_in tt))
  /\ Inv (final (run Backend.handler (perform (op_handleSelectTitle "Rookie") signed_in)
                   signed_in world50))
         (world (run Backend.handler (perform (op_handleSelectTitle "Rookie") signed_in)
                   signed_in world50)).
Proof.
  split.
  - apply (proj1 operations_preserve_selected_title_invariant unit (answering quiet) tt
             signed_in (op_handleSelectTitle "Rookie")).
    + exact quiet_serves_ok_rows.
    + exact signed_in_snapshot_ok.
  - apply (proj2 operations_preserve_selected_title_invariant (op_handleSelectTitle "Rookie")
             world50 signed_in).
    exact signed_in_consistent.
Defined.

(** * Further properties of the hook and the screens *)

(** ** Loading a profile *)

(** X1. [getProfile] (lines 43-67) never writes.  Without a user on the
    rendered session it throws "No user on the session!" before any call.
    Otherwise it makes exactly one query for the user's row; an error is
    rethrown unless its status is 406, and the snapshot is replaced only
    by a row the reply carries: a reply without data, tolerated or not,
    keeps the snapshot that was there. *)
Theorem getProfile_loads_or_keeps W (h : Handler W) (w : W) (s : State) :
  let r := run h (getProfile s) s w in
  writes r = []
  /\ match session s with
     | None =>
         outcome r = Thrown (JsError "No user on the session!")
         /\ calls r = [] /\ profile (final r) = profile s
     | Some sess =>
         let resp := fst (h (profiles_select_single profile_columns (uid sess)) w) in
         calls r = [profiles_select_single profile_columns (uid sess)]
         /\ match error resp with
            | Some e =>
                if status resp =? 406
                then outcome r = Returned tt
                     /\ profile (final r) = match data resp with
                                            | Some d => Some d
                                            | None => profile s
                                            end
                else outcome r = Thrown (Remote e) /\ profile (final r) = profile s
            | None =>
                outcome r = Returned tt
                /\ profile (final r) = match data resp with
                                       | Some d => Some d
                                       | None => profile s
                                       end
            end
     end.
Proof.
  intros r. subst r. unfold getProfile, writes, calls, uid.
  destruct (session s) as [sess|]; simpl; [|done].
  destruct (h _ w) as [[d [e|] st] w1]; simpl.
  - destruct (st =? 406); simpl; [|done]. by destruct d.
  - by destruct d.
Qed.

(** ** The busy flags *)

Lemma finally_resets_flags W (h : Handler W) (w : W) (s : State) (op : Operation) :
  let r := run h (perform op s) s w in
  match op with
  | op_getProfile | op_handleAvatarUpload _ | op_handleSignOut | op_handleSelectTitle _ =>
      loading (final r) = false /\ uploading (final r) = uploading s
  | op_handleImagePicker | op_uploadAvatar _ =>
      uploading (final r) = false
      /\ (loading (final r) = false \/ loading (final r) = loading s)
  | op_fetchTitles =>
      uploading (final r) = uploading s
      /\ (loading (final r) = false \/ loading (final r) = loading s)
  end.
Proof.
  intros r. subst r.
  destruct op;
    unfold perform, fetchTitles, handleImagePicker, uploadAvatar, handleAvatarUpload,
      handleSignOut, handleSelectTitle, not_awaited, getProfile;
    crack h; auto.
Qed.

(** X2. The four callbacks that raise [loading] ([getProfile],
    [handleAvatarUpload], [handleSignOut], [handleSelectTitle]) leave it
    [false] on every exit, returned or thrown, whatever the collaborators
    answer, and never touch [uploading]. *)
Theorem loading_flag_cleared_on_every_exit W (h : Handler W) (w : W) (s : State) :
  (let r := run h (getProfile s) s w in
   loading (final r) = false /\ uploading (final r) = uploading s)
  /\ (forall publicUrl,
        let r := run h (handleAvatarUpload s publicUrl) s w in
        loading (final r) = false /\ uploading (final r) = uploading s)
  /\ (let r := run h (handleSignOut s) s w in
      loading (final r) = false /\ uploading (final r) = uploading s)
  /\ (forall title,
        let r := run h (handleSelectTitle s title) s w in
        loading (final r) = false /\ uploading (final r) = uploading s).
Proof.
  split; [|split; [|split]].
  - exact (finally_resets_flags W h w s op_getProfile).
  - intros publicUrl. exact (finally_resets_flags W h w s (op_handleAvatarUpload publicUrl)).
  - exact (finally_resets_flags W h w s op_handleSignOut).
  - intros title. exact (finally_resets_flags W h w s (op_handleSelectTitle title)).
Qed.

(** X3. [handleImagePicker] and [uploadAvatar] leave [uploading] [false]
    on every exit, the early returns included; [loading] is either left as
    it was or was lowered by the [handleAvatarUpload] they end with.
    [fetchTitles] has no flag of its own: it never touches [uploading],
    and [loading] changes only through the [getProfile] it starts. *)
Theorem uploading_flag_cleared_on_every_exit W (h : Handler W) (w : W) (s : State) :
  (let r := run h (handleImagePicker s) s w in
   uploading (final r) = false
   /\ (loading (final r) = false \/ loading (final r) = loading s))
  /\ (forall uri,
        let r := run h (uploadAvatar s uri) s w in
        uploading (final r) = false
        /\ (loading (final r) = false \/ loading (final r) = loading s))
  /\ (let r := run h (fetchTitles s) s w in
      uploading (final r) = uploading s
      /\ (loading (final r) = false \/ loading (final r) = loading s)).
Proof.
  split; [|split].
  - exact (finally_resets_flags W h w s op_handleImagePicker).
  - intros uri. exact (finally_resets_flags W h w s (op_uploadAvatar uri)).
  - exact (finally_resets_flags W h w s op_fetchTitles).
Qed.

(** ** Titles *)

(** X4. When the title table is read and the user has no profile row
    (the second reply carries no data), [fetchTitles] (lines 70-114) makes
    its two queries and nothing else, returns, and shows the table as it
    was read ([[]] for a reply without data). *)
Theorem fetchTitles_without_profile_row W (h : Handler W) (w w1 w2 : W) (s : State)
    (sess : Session) (tresp : Response (list Title.t)) (presp : Response Profile.t) :
  session s = Some sess ->
  h titles_select_ordered w = (tresp, w1) ->
  error tresp = None ->
  h (profiles_select_single "points, titles" (uid sess)) w1 = (presp, w2) ->
  data presp = None ->
  let r := run h (fetchTitles s) s w in
  outcome r = Returned tt
  /\ calls r = [titles_select_ordered; profiles_select_single "points, titles" (uid sess)]
  /\ final r = mkState (loading s) (uploading s) (session s) (profile s)
                 (default [] (data tresp)).
Proof.
  intros Hs Ht He Hp Hd r. subst r. unfold fetchTitles, calls, uid in *.
  rewrite Hs. simpl. rewrite Ht. simpl. rewrite He. simpl. rewrite Hp. simpl.
  rewrite Hd. simpl. by rewrite Hs.
Qed.

Lemma fetchTitles_without_profile_row_witness :
  let r := run (answering (serving table3 None)) (fetchTitles signed_in) signed_in tt in
  outcome r = Returned tt
  /\ calls r = [titles_select_ordered; profiles_select_single "points, titles" "u1"]
  /\ final r = mkState false false (Some alice) (Some row50) table3.
Proof.
  exact (fetchTitles_without_profile_row unit (answering (serving table3 None)) tt tt tt
           signed_in alice (mkResponse (Some table3) None 200) (mkResponse None None 200)
           eq_refl eq_refl eq_refl eq_refl eq_refl).
Defined.

Lemma newlyUnlockedTitles_null_cases T row :
  Profile.titles row = None ->
  newlyUnlockedTitles T row =
  if some_eligible T (Profile.points row)
  then inl (TypeError "Cannot read properties of null (reading 'includes')")
  else inr [].
Proof.
  intros HU. unfold newlyUnlockedTitles, some_eligible.
  induction T as [|x T IH]; [done|]. simpl. unfold eligible at 1. rewrite HU.
  destruct (Title.points_required x <=? Profile.points row); simpl; [done|].
  destruct (filter_raising (eligible row) T) as [e|kept];
    destruct (existsb _ T); simpl in *; congruence.
Qed.

(** X5. A profile row whose [titles] column is [null]: line 95 reads
    [profileData.titles.includes] without the guard that line 99 has.
    [fetchTitles] then throws a [TypeError] as soon as one title of the
    table is within reach of the user's points, and shows no table; when
    no title is within reach the filter never evaluates [includes], the
    call returns and the table is shown.  Nothing is written either way. *)
Theorem fetchTitles_null_titles W (h : Handler W) (w w1 w2 : W) (s : State)
    (sess : Session) (tresp : Response (list Title.t)) (presp : Response Profile.t)
    (T : list Title.t) (row : Profile.t) :
  session s = Some sess ->
  h titles_select_ordered w = (tresp, w1) ->
  error tresp = None ->
  data tresp = Some T ->
  h (profiles_select_single "points, titles" (uid sess)) w1 = (presp, w2) ->
  data presp = Some row ->
  Profile.titles row = None ->
  let r := run h (fetchTitles s) s w in
  writes r = []
  /\ if some_eligible T (Profile.points row)
     then outcome r = Thrown (TypeError "Cannot read properties of null (reading 'includes')")
          /\ titles (final r) = titles s
     else outcome r = Returned tt /\ titles (final r) = T.
Proof.
  intros Hs Ht He Hd Hp Hpd HU r. subst r. unfold fetchTitles, writes, calls, uid in *.
  rewrite Hs. simpl. rewrite Ht. simpl. rewrite He. simpl. rewrite Hp. simpl.
  rewrite Hpd, Hd. rewrite (newlyUnlockedTitles_null_cases T row HU).
  by destruct (some_eligible T (Profile.points row)).
Qed.

Lemma fetchTitles_null_titles_witness :
  let r := run (answering (serving table3 (Some null_titles_row)))
             (fetchTitles signed_in) signed_in tt in
  writes r = []
  /\ outcome r = Thrown (TypeError "Cannot read properties of null (reading 'includes')")
  /\ titles (final r) = [].
Proof.
  exact (fetchTitles_null_titles unit (answering (serving table3 (Some null_titles_row)))
           tt tt tt signed_in alice (mkResponse (Some table3) None 200)
           (mkResponse (Some null_titles_row) None 200) table3 null_titles_row
           eq_refl eq_refl eq_refl eq_refl eq_refl eq_refl eq_refl).
Defined.

Lemma NoDup_filter_map {A B} (f : A -> B) (p : A -> bool) (l : list A) :
  NoDup (map f l) -> NoDup (map f (List.filter p l)).
Proof.
  induction l as [|x l IH]; [done|]. simpl. intros Hn.
  apply NoDup_cons in Hn as [Hx Hn]. destruct (p x); simpl; [|by apply IH].
  apply NoDup_cons. split; [|by apply IH].
  intros Hin. apply Hx. apply list_elem_of_In, in_map_iff in Hin as (y & Hy & Hin).
  apply filter_In in Hin as [Hin _].
  apply list_elem_of_In, in_map_iff. eauto.
Qed.

(** X6. The list [fetchTitles] writes to the [titles] column (line 99)
    starts with the stored list, unchanged and in its order, so no title
    is ever taken away; and when the table's keys are distinct and the
    stored list has no duplicate, the written list has none either. *)
Theorem fetchTitles_keeps_titles_distinct W (h : Handler W) (w w1 w2 : W) (s : State)
    (sess : Session) (tresp : Response (list Title.t)) (presp : Response Profile.t)
    (T : list Title.t) (row : Profile.t) (U : list string) :
  session s = Some sess ->
  h titles_select_ordered w = (tresp, w1) ->
  error tresp = None ->
  data tresp = Some T ->
  h (profiles_select_single "points, titles" (uid sess)) w1 = (presp, w2) ->
  data presp = Some row ->
  Profile.titles row = Some U ->
  NoDup (map Title.title T) ->
  NoDup U ->
  forall id updatedTitles,
    profiles_update (patch_titles updatedTitles) id ∈ calls (run h (fetchTitles s) s w) ->
    NoDup updatedTitles
    /\ (forall t, t ∈ U -> t ∈ updatedTitles)
    /\ take (length U) updatedTitles = U.
Proof.
  intros Hs Ht He Hd Hp Hpd HU HT HUd id updatedTitles Hin.
  destruct (fetchTitles_with_replies W h w w1 w2 s sess tresp presp T row U
              Hs Ht He Hd Hp Hpd HU) as (_ & Hw & _).
  assert (profiles_update (patch_titles updatedTitles) id
          ∈ writes (run h (fetchTitles s) s w)) as Hin'.
  { unfold writes. apply list_elem_of_In, filter_In. split; [by apply list_elem_of_In|done]. }
  rewrite Hw in Hin'.
  destruct (newly_of T (Profile.points row) U) as [|t0 more] eqn:En;
    [by apply elem_of_nil in Hin'|].
  apply list_elem_of_singleton in Hin'. injection Hin' as -> ->.
  rewrite <- En. split; [|split].
  - apply NoDup_app. split; [done|]. split.
    + intros t HtU Htn. apply newly_of_elem in Htn as (x & _ & _ & _ & Hn). contradiction.
    + unfold newly_of. by apply NoDup_filter_map.
  - intros t HtU. apply elem_of_app. by left.
  - by rewrite take_app_length.
Qed.

Lemma fetchTitles_keeps_titles_distinct_witness :
  profiles_update (patch_titles ["Rookie"; "Pro"]) "u1"
    ∈ calls (run (answering (serving table3 (Some row50))) (fetchTitles signed_in)
               signed_in tt)
  /\ NoDup ["Rookie"; "Pro"]
  /\ (forall t, t ∈ ["Rookie"] -> t ∈ ["Rookie"; "Pro"])
  /\ take (length ["Rookie"]) ["Rookie"; "Pro"] = ["Rookie"].
Proof.
  assert (profiles_update (patch_titles ["Rookie"; "Pro"]) "u1"
          ∈ calls (run (answering (serving table3 (Some row50))) (fetchTitles signed_in)
                     signed_in tt)) as Hin by (vm_compute; find_event).
  assert (NoDup (map Title.title table3)) as HT
    by (apply (bool_decide_unpack _); by vm_compute).
  split; [exact Hin|].
  exact (fetchTitles_keeps_titles_distinct unit (answering (serving table3 (Some row50)))
           tt tt tt signed_in alice (mkResponse (Some table3) None 200)
           (mkResponse (Some row50) None 200) table3 row50 ["Rookie"]
           eq_refl eq_refl eq_refl eq_refl eq_refl eq_refl eq_refl
           HT (NoDup_singleton "Rookie") "u1" ["Rookie"; "Pro"] Hin).
Defined.

Lemma filter_partition_perm {A} (p : A -> bool) (l : list A) :
  List.filter p l ++ List.filter (fun x => negb (p x)) l ≡ₚ l.
Proof.
  induction l as [|x l IH]; [done|]. simpl. destruct (p x); simpl.
  - by rewrite IH.
  - rewrite <- Permutation_middle. by rewrite IH.
Qed.

(** X7. The two lists of the profile screen (profile.tsx, lines 114-115)
    split the loaded table: together they are a rearrangement of [titles],
    a title is in [unlockedTitles] exactly when the snapshot's unlocked
    set has its key and in [lockedTitles] exactly when it has not; with an
    empty unlocked set (no snapshot, or [titles] null) every title is
    shown as locked. *)
Theorem titles_split_into_unlocked_and_locked (s : State) :
  ProfileScreen.unlockedTitles s ++ ProfileScreen.lockedTitles s ≡ₚ titles s
  /\ (forall x, x ∈ ProfileScreen.unlockedTitles s <->
                x ∈ titles s /\ Title.title x ∈ unlocked_titles s)
  /\ (forall x, x ∈ ProfileScreen.lockedTitles s <->
                x ∈ titles s /\ Title.title x ∉ unlocked_titles s)
  /\ (unlocked_titles s = [] ->
      ProfileScreen.unlockedTitles s = [] /\ ProfileScreen.lockedTitles s = titles s).
Proof.
  unfold ProfileScreen.unlockedTitles, ProfileScreen.lockedTitles.
  split; [apply filter_partition_perm|]. split; [|split].
  - intros x. rewrite <- unlocked_spec.
    rewrite (list_elem_of_In (List.filter _ _)), filter_In. by rewrite <- list_elem_of_In.
  - intros x. rewrite (list_elem_of_In (List.filter _ _)), filter_In, negb_true_iff.
    rewrite <- list_elem_of_In. split.
    + intros [Hx Hu]. split; [done|]. intros Hin. apply unlocked_spec in Hin. congruence.
    + intros [Hx Hu]. split; [done|].
      destruct (unlocked s (Title.title x)) eqn:E; [|done]. by apply unlocked_spec in E.
  - intros He.
    assert (forall x, unlocked s (Title.title x) = false) as Hall.
    { intros x. destruct (unlocked s (Title.title x)) eqn:E; [|done].
      apply unlocked_spec in E. rewrite He in E. by apply elem_of_nil in E. }
    split.
    + apply filter_none. intros x _. apply Hall.
    + induction (titles s) as [|x l IH]; [done|]. simpl. rewrite Hall. simpl. by rewrite IH.
Qed.

Lemma titles_split_into_unlocked_and_locked_witness :
  let s := mkState false false None None table3 in
  unlocked_titles s = []
  /\ ProfileScreen.unlockedTitles s = []
  /\ ProfileScreen.lockedTitles s = table3.
Proof.
  split; [reflexivity|].
  exact (proj2 (proj2 (proj2 (titles_split_into_unlocked_and_locked
                                (mkState false false None None table3)))) eq_refl).
Defined.

(** X8. Against the reference store, for a signed-in user whose snapshot
    is the stored row and whose [titles] column holds a list (not
    [null]): after [fetchTitles], with the [getProfile] it starts, the
    state holds the whole title table, every title that [lockedTitles] of
    the profile screen then lists costs more points than the user has,
    and every title of the table within reach of the user's points is in
    [unlockedTitles]. *)
Theorem fetchTitles_leaves_no_reachable_title_locked (w : Backend.t) (s : State)
    (sess : Session) (row : Profile.t) (U : list string) :
  Backend.faults w = [] ->
  session s = Some sess ->
  Backend.profiles w !! uid sess = Some row ->
  Profile.titles row = Some U ->
  profile s = Some row ->
  let r := run Backend.handler (fetchTitles s) s w in
  (forall x, x ∈ titles (final r) <-> x ∈ Backend.titlesTable w)
  /\ (forall x, x ∈ ProfileScreen.lockedTitles (final r) ->
        Profile.points row < Title.points_required x)
  /\ (forall x, x ∈ Backend.titlesTable w ->
        Title.points_required x <= Profile.points row ->
        x ∈ ProfileScreen.unlockedTitles (final r)).
Proof.
  intros Hf Hs Hrow HU Hp r.
  assert (titles (final r) = Backend.ordered_titles w
          /\ exists p, profile (final r) = Some p
               /\ Profile.titles p
                  = Some (U ++ newly_of (Backend.ordered_titles w) (Profile.points row) U))
    as (Ht & p & Hfp & Htp).
  { subst r. unfold fetchTitles, not_awaited, getProfile, uid in *. rewrite Hs. simpl.
    rewrite (select_titles_ok w Hf). simpl. rewrite (select_single_ok _ w Hf), Hrow. simpl.
    rewrite (newlyUnlockedTitles_filter _ row U HU).
    unfold titles_or_empty. rewrite HU.
    destruct (newly_of (Backend.ordered_titles w) (Profile.points row) U) as [|t0 more].
    - simpl. split; [done|]. exists row. by rewrite Hp, HU, app_nil_r.
    - simpl. rewrite (update_ok _ _ w Hf). simpl. rewrite select_single_ok by done. simpl.
      rewrite lookup_alter_eq, Hrow. simpl. split; [done|]. eexists. split; [done|]. done. }
  assert (forall x, x ∈ titles (final r) ->
            Title.points_required x <= Profile.points row ->
            unlocked (final r) (Title.title x) = true) as Hreach.
  { intros x Hx Hle. unfold unlocked. rewrite Hfp, Htp. apply includes_spec, elem_of_app.
    destruct (includes U (Title.title x)) eqn:Hi; [left; by apply includes_spec|].
    right. apply newly_of_elem. exists x. rewrite <- Ht. split; [done|]. split; [done|].
    split; [done|]. by apply includes_false. }
  split; [|split].
  - intros x. rewrite Ht. apply elem_of_merge_sort_by_points.
  - intros x Hx. unfold ProfileScreen.lockedTitles in Hx.
    apply list_elem_of_In, filter_In in Hx as [Hx Hl]. apply list_elem_of_In in Hx.
    destruct (Z_lt_le_dec (Profile.points row) (Title.points_required x)) as [|Hle]; [done|].
    rewrite (Hreach x Hx Hle) in Hl. discriminate.
  - intros x Hx Hle. unfold ProfileScreen.unlockedTitles.
    apply list_elem_of_In, filter_In.
    assert (x ∈ titles (final r)) as Hx'
      by (rewrite Ht; by apply elem_of_merge_sort_by_points).
    split; [by apply list_elem_of_In|]. by apply Hreach.
Qed.

Lemma fetchTitles_leaves_no_reachable_title_locked_witness :
  let r := run Backend.handler (fetchTitles signed_in) signed_in world50 in
  (forall x, x ∈ titles (final r) <-> x ∈ table3)
  /\ (forall x, x ∈ ProfileScreen.lockedTitles (final r) -> 50 < Title.points_required x)
  /\ (forall x, x ∈ table3 -> Title.points_required x <= 50 ->
        x ∈ ProfileScreen.unlockedTitles (final r)).
Proof.
  apply (fetchTitles_leaves_no_reachable_title_locked world50 signed_in alice row50
           ["Rookie"]); by vm_compute.
Defined.

(** X9. Against the reference store, for a signed-in user whose snapshot
    is the stored row: selecting an unlocked title returns, and the row
    the store then holds is the snapshot the hook shows, so that a reload
    by [getProfile] changes nothing. *)
Theorem handleSelectTitle_store_agrees (w : Backend.t) (s : State) (sess : Session)
    (row : Profile.t) (title : string) :
  Backend.faults w = [] ->
  session s = Some sess ->
  Backend.profiles w !! uid sess = Some row ->
  profile s = Some row ->
  title ∈ titles_or_empty row ->
  let r := run Backend.handler (handleSelectTitle s title) s w in
  let r' := run Backend.handler (getProfile (final r)) (final r) (world r) in
  outcome r = Returned tt
  /\ profile (final r) = Some (Profile.with_selected_title title row)
  /\ Backend.profiles (world r) !! uid sess = profile (final r)
  /\ outcome r' = Returned tt
  /\ profile (final r') = profile (final r).
Proof.
  intros Hf Hs Hrow Hp Hin r r'. subst r' r.
  assert (unlocked s title = true) as Hu.
  { apply unlocked_spec. unfold unlocked_titles. by rewrite Hp. }
  unfold handleSelectTitle, getProfile, uid in *. rewrite Hs. simpl. rewrite Hu. simpl.
  rewrite (update_ok _ _ w Hf). simpl. rewrite Hp. simpl. rewrite Hs. simpl.
  rewrite select_single_ok by done. simpl.
  rewrite lookup_alter_eq, Hrow. simpl. done.
Qed.

Lemma handleSelectTitle_store_agrees_witness :
  let r := run Backend.handler (handleSelectTitle signed_in "Rookie") signed_in world50 in
  let r' := run Backend.handler (getProfile (final r)) (final r) (world r) in
  outcome r = Returned tt
  /\ profile (final r) = Some (Profile.with_selected_title "Rookie" row50)
  /\ Backend.profiles (world r) !! uid alice = profile (final r)
  /\ outcome r' = Returned tt
  /\ profile (final r') = profile (final r).
Proof.
  apply (handleSelectTitle_store_agrees world50 signed_in alice row50 "Rookie");
    try (by vm_compute).
  apply list_elem_of_here.
Defined.

(** ** Avatars *)

(** X10. Against the reference store, for a signed-in user whose snapshot
    is the stored row: [handleAvatarUpload] (lines 117-144) reads the
    clock and upserts once.  The stored row gets the address and the new
    [updated_at]; the snapshot gets the address only (line 138), so it
    keeps the old [updated_at] until the next reload, which returns the
    stored row. *)
Theorem handleAvatarUpload_snapshot_lags_store (w : Backend.t) (s : State) (sess : Session)
    (row : Profile.t) (publicUrl : string) :
  Backend.faults w = [] ->
  session s = Some sess ->
  Backend.profiles w !! uid sess = Some row ->
  profile s = Some row ->
  let now := Backend.ambient w date_now in
  let r := run Backend.handler (handleAvatarUpload s publicUrl) s w in
  let r' := run Backend.handler (getProfile (final r)) (final r) (world r) in
  exists snap stored,
    profile (final r) = Some snap
    /\ Backend.profiles (world r) !! uid sess = Some stored
    /\ calls r = [date_now; profiles_upsert (uid sess) publicUrl now]
    /\ Profile.avatar_url snap = Some publicUrl
    /\ Profile.updated_at snap = Profile.updated_at row
    /\ stored = Profile.mk (Profile.id snap) (Profile.first_name snap) (Profile.last_name snap)
                  (Profile.avatar_url snap) (Profile.preferred_transport snap)
                  (Profile.points snap) (Profile.titles snap) (Profile.selected_title snap)
                  (Profile.favorites snap) (Some now)
    /\ profile (final r') = Some stored.
Proof.
  intros Hf Hs Hrow Hp now r r'. subst r' r now.
  exists (Profile.with_avatar_url publicUrl row),
         (Backend.upsert_row (uid sess) publicUrl (Backend.ambient w date_now) (Some row)).
  unfold handleAvatarUpload, getProfile, calls, uid in *. rewrite Hs. simpl.
  unfold Backend.upsert, Backend.next_fault. rewrite Hf. simpl. rewrite Hp, Hs, Hrow. simpl.
  rewrite select_single_ok by done. simpl. rewrite lookup_insert_eq. simpl. done.
Qed.

Lemma handleAvatarUpload_snapshot_lags_store_witness :
  let r := run Backend.handler (handleAvatarUpload signed_in "https://cdn.example/u1.png")
             signed_in world50 in
  let r' := run Backend.handler (getProfile (final r)) (final r) (world r) in
  exists snap stored,
    profile (final r) = Some snap
    /\ Backend.profiles (world r) !! uid alice = Some stored
    /\ calls r = [date_now;
                  profiles_upsert "u1" "https://cdn.example/u1.png" "2024-01-01T00:00:00.000Z"]
    /\ Profile.avatar_url snap = Some "https://cdn.example/u1.png"
    /\ Profile.updated_at snap = None
    /\ stored = Profile.mk (Profile.id snap) (Profile.first_name snap) (Profile.last_name snap)
                  (Profile.avatar_url snap) (Profile.preferred_transport snap)
                  (Profile.points snap) (Profile.titles snap) (Profile.selected_title snap)
                  (Profile.favorites snap) (Some "2024-01-01T00:00:00.000Z")
    /\ profile (final r') = Some stored.
Proof.
  apply (handleAvatarUpload_snapshot_lags_store world50 signed_in alice row50
           "https://cdn.example/u1.png"); by vm_compute.
Defined.

(** X11. Once media access is granted, [handleImagePicker] (lines
    147-231) asks the picker and then stops before it reaches the object
    store when the user cancels (it returns), when the result has no
    asset ("No image selected.") and when the rendered session has no
    user ("No user session found"); in those three cases the two picker
    calls are all it does and only [uploading] is reset.  Otherwise its
    third call lists the user's folder in the bucket [avatars]. *)
Theorem handleImagePicker_stops_before_storage W (h : Handler W) (w w1 w2 : W) (s : State)
    (picked : PickerResult) :
  h picker_requestPermissions w = (granted, w1) ->
  h picker_launchImageLibrary w1 = (picked, w2) ->
  let r := run h (handleImagePicker s) s w in
  let untouched := mkState (loading s) false (session s) (profile s) (titles s) in
  if canceled picked then
    outcome r = Returned tt
    /\ calls r = [picker_requestPermissions; picker_launchImageLibrary]
    /\ final r = untouched
  else
    match assets picked, session s with
    | None, _ | Some [], _ =>
        outcome r = Thrown (JsError "No image selected.")
        /\ calls r = [picker_requestPermissions; picker_launchImageLibrary]
        /\ final r = untouched
    | Some (_ :: _), None =>
        outcome r = Thrown (JsError "No user session found")
        /\ calls r = [picker_requestPermissions; picker_launchImageLibrary]
        /\ final r = untouched
    | Some (_ :: _), Some sess =>
        take 3 (calls r) =
          [picker_requestPermissions; picker_launchImageLibrary;
           storage_list "avatars" (uid sess)]
    end.
Proof.
  intros Hp Hl r untouched. subst r untouched.
  unfold handleImagePicker, calls, uid. simpl. rewrite Hp. simpl. rewrite Hl. simpl.
  destruct (canceled picked); simpl; [done|].
  destruct (assets picked) as [[|file more]|]; simpl; [done| |done].
  destruct (session s) as [sess|]; simpl; [|done]. done.
Qed.

Lemma handleImagePicker_stops_before_storage_witness :
  (let r := run (answering (picking [])) (handleImagePicker signed_out) signed_out tt in
   outcome r = Thrown (JsError "No user session found")
   /\ calls r = [picker_requestPermissions; picker_launchImageLibrary]
   /\ final r = signed_out)
  /\ (let r := run (answering quiet) (handleImagePicker signed_in) signed_in tt in
      outcome r = Returned tt
      /\ calls r = [picker_requestPermissions; picker_launchImageLibrary]
      /\ final r = signed_in).
Proof.
  split.
  - exact (handleImagePicker_stops_before_storage unit (answering (picking [])) tt tt tt
             signed_out {| canceled := false; assets := Some [photo] |} eq_refl eq_refl).
  - exact (handleImagePicker_stops_before_storage unit (answering quiet) tt tt tt
             signed_in {| canceled := true; assets := None |} eq_refl eq_refl).
Defined.

Lemma str_append_cons (c : ascii) (a b : string) :
  String.append (String c a) b = String c (String.append a b).
Proof. reflexivity. Qed.

Lemma str_append_nil (b : string) : String.append "" b = b.
Proof. reflexivity. Qed.

Lemma dot_free_append (a b : string) :
  dot_free (String.append a b) = dot_free a && dot_free b.
Proof.
  induction a as [|c a IH]; [done|]. rewrite str_append_cons. cbn [dot_free]. rewrite IH.
  by rewrite andb_assoc.
Qed.

Lemma str_append_assoc (a b c : string) :
  String.append (String.append a b) c = String.append a (String.append b c).
Proof. induction a as [|x a IH]; [done|]. rewrite !str_append_cons. by rewrite IH. Qed.

Lemma str_append_empty_r (a : string) : String.append a "" = a.
Proof. induction a as [|x a IH]; [done|]. rewrite str_append_cons. by rewrite IH. Qed.

Lemma split_pop_from_dot_free (acc e : string) :
  dot_free e = true -> split_pop_from acc e = String.append acc e.
Proof.
  revert acc. induction e as [|c e IH]; intros acc He; cbn [split_pop_from].
  - by rewrite str_append_empty_r.
  - cbn [dot_free] in He. apply andb_true_iff in He as [Hc He].
    apply negb_true_iff in Hc. rewrite Hc, IH by done.
    by rewrite str_append_assoc, str_append_cons, str_append_nil.
Qed.

Lemma split_pop_from_result_dot_free (acc s : string) :
  dot_free acc = true -> dot_free (split_pop_from acc s) = true.
Proof.
  revert acc. induction s as [|c s IH]; intros acc Ha; cbn [split_pop_from]; [done|].
  destruct (Ascii.eqb c ".") eqn:Hc; [by apply IH|].
  apply IH. rewrite dot_free_append, Ha. cbn [dot_free]. by rewrite Hc.
Qed.

Lemma split_pop_from_after_dot (acc a e : string) :
  dot_free e = true ->
  split_pop_from acc (String.append a (String.append "." e)) = e.
Proof.
  intros He. revert acc. induction a as [|c a IH]; intros acc.
  - rewrite str_append_nil, str_append_cons, str_append_nil. cbn [split_pop_from].
    replace (Ascii.eqb "." ".") with true by reflexivity.
    by rewrite split_pop_from_dot_free.
  - rewrite str_append_cons. cbn [split_pop_from]. destruct (Ascii.eqb c "."); apply IH.
Qed.

(** X12. The object key of [handleImagePicker] (lines 177-179) is the
    user id, a dot, and what follows the last dot of the picked file's
    address.  That extension never contains a dot, the key has the same
    extension as the address, and an address without any dot is taken as
    its own extension, whole. *)
Theorem stored_key_keeps_extension (userId : string) (file : Asset) :
  dot_free (split_pop (uri file)) = true
  /\ split_pop (avatar_path userId file) = split_pop (uri file)
  /\ (forall base ext,
        dot_free ext = true ->
        uri file = String.append base (String.append "." ext) ->
        avatar_path userId file = String.append userId (String.append "." ext))
  /\ (dot_free (uri file) = true ->
      avatar_path userId file = String.append userId (String.append "." (uri file))).
Proof.
  assert (dot_free (split_pop (uri file)) = true) as Hd
    by (by apply split_pop_from_result_dot_free).
  split; [done|]. split; [|split].
  - unfold avatar_path. cbv zeta. unfold split_pop at 1. by apply split_pop_from_after_dot.
  - intros base ext He Hu. unfold avatar_path, split_pop. rewrite Hu.
    by rewrite split_pop_from_after_dot.
  - intros Hu. unfold avatar_path, split_pop. by rewrite split_pop_from_dot_free.
Qed.

Lemma stored_key_keeps_extension_witness :
  dot_free "png" = true
  /\ uri photo = String.append "file:///photos/me" (String.append "." "png")
  /\ avatar_path "u1" photo = "u1.png".
Proof.
  split; [reflexivity|]. split; [reflexivity|].
  exact (proj1 (proj2 (proj2 (stored_key_keeps_extension "u1" photo)))
           "file:///photos/me" "png" eq_refl eq_refl).
Defined.

(** X13. Both avatar flows change the snapshot only at the end of the
    whole chain.  A run of [handleImagePicker] or [uploadAvatar] that
    throws, at whatever step, leaves the snapshot as it was.  A
    [handleImagePicker] that returns either stopped at the picker (denied
    or cancelled) and left the snapshot alone, or uploaded an object,
    asked the object store for the public address of that same object,
    made the upsert of that address its last call, and put that address,
    nothing else, into the snapshot.  An [uploadAvatar] that returns
    always did the latter. *)
Theorem avatar_change_follows_public_url W (h : Handler W) (w : W) (s : State) :
  (let r := run h (handleImagePicker s) s w in
   (forall e, outcome r = Thrown e -> profile (final r) = profile s)
   /\ (outcome r = Returned tt ->
       (calls r = [picker_requestPermissions]
        \/ calls r = [picker_requestPermissions; picker_launchImageLibrary])
       /\ profile (final r) = profile s
       \/ exists sess path blob options url now,
            session s = Some sess
            /\ last (calls r) = Some (profiles_upsert (uid sess) url now)
            /\ storage_upload "avatars" path blob options ∈ calls r
            /\ mkEvent (storage_getPublicUrl "avatars" path) (Some url) ∈ trace r
            /\ profile (final r) = Profile.with_avatar_url url <$> profile s))
  /\ (forall uri,
        let r := run h (uploadAvatar s uri) s w in
        (forall e, outcome r = Thrown e -> profile (final r) = profile s)
        /\ (outcome r = Returned tt ->
            exists sess path blob options url now,
              session s = Some sess
              /\ last (calls r) = Some (profiles_upsert (uid sess) url now)
              /\ storage_upload "avatars" path blob options ∈ calls r
              /\ mkEvent (storage_getPublicUrl "avatars" path) (Some url) ∈ trace r
              /\ profile (final r) = Profile.with_avatar_url url <$> profile s)).
Proof.
  split; [|intros uri]; intros r; subst r;
    unfold handleImagePicker, uploadAvatar, handleAvatarUpload, calls, uid.
  - split.
    + intros e. crack h; intros Ho; try discriminate Ho; done.
    + crack h; intros Ho; try discriminate Ho; first
        [ left; split; [by left|done]
        | left; split; [by right|done]
        | right; do 6 eexists; split; [reflexivity|]; split; [reflexivity|];
          split; [find_event|]; split; [find_event|]; done ].
  - split.
    + intros e. crack h; intros Ho; try discriminate Ho; done.
    + crack h; intros Ho; try discriminate Ho.
      all: do 6 eexists; split; [reflexivity|]; split; [reflexivity|];
          split; [find_event|]; split; [find_event|]; done.
Qed.

Lemma avatar_change_follows_public_url_witness :
  (let r := run (answering offline) (uploadAvatar signed_in (inr png_file)) signed_in tt in
   outcome r = Thrown (Remote "offline")
   /\ profile (final r) = profile signed_in)
  /\ (let r := run (answering quiet) (uploadAvatar signed_in (inr png_file)) signed_in tt in
      outcome r = Returned tt
      /\ exists sess path blob options url now,
           session signed_in = Some sess
           /\ last (calls r) = Some (profiles_upsert (uid sess) url now)
           /\ storage_upload "avatars" path blob options ∈ calls r
           /\ mkEvent (storage_getPublicUrl "avatars" path) (Some url) ∈ trace r
           /\ profile (final r) = Profile.with_avatar_url url <$> profile signed_in).
Proof.
  split.
  - split; [reflexivity|].
    exact (proj1 (proj2 (avatar_change_follows_public_url unit (answering offline) tt
                           signed_in) (inr png_file))
             (Remote "offline") eq_refl).
  - split; [reflexivity|].
    exact (proj2 (proj2 (avatar_change_follows_public_url unit (answering quiet) tt
                           signed_in) (inr png_file))
             eq_refl).
Defined.

Lemma or_default_nonempty (x d : string) : d <> "" -> or_default x d <> "".
Proof.
  intros Hd. unfold or_default. destruct (String.eqb_spec x ""); congruence.
Qed.

(** X14. [uploadAvatar] (lines 251-307) never lists or removes stored
    objects, and for a [File] it never fetches.  Every object it uploads
    goes to the bucket [avatars] with [upsert: true], under the key
    [avatars/<user id>_<timestamp>.<extension>], where the timestamp is a
    clock reading of this very call and the extension is not empty; for a
    [File] the uploaded bytes are the file itself. *)
Theorem uploadAvatar_writes_a_fresh_key W (h : Handler W) (w : W) (s : State)
    (uri : string + File) :
  let r := run h (uploadAvatar s uri) s w in
  List.filter touches_stored_objects (calls r) = []
  /\ (forall f, uri = inr f -> List.filter is_fetch (calls r) = [])
  /\ (forall bucket path blob options,
        storage_upload bucket path blob options ∈ calls r ->
        bucket = "avatars"
        /\ upsert options = true
        /\ (forall f, uri = inr f -> blob = file_blob f)
        /\ exists userId timestamp ext,
             truthy (user_id <$> (user <$> session s)) = Some userId
             /\ mkEvent date_now timestamp ∈ trace r
             /\ ext <> ""
             /\ path = String.append "avatars/"
                         (String.append userId
                            (String.append "_"
                               (String.append timestamp (String.append "." ext))))).
Proof.
  intros r. subst r. unfold uploadAvatar, handleAvatarUpload, calls.
  split; [crack h; done|]. split; [intros f ->; crack h; done|].
  intros bucket path blob options.
  crack h; intros Hin;
    repeat (apply elem_of_cons in Hin as [Hc | Hin]; [try discriminate Hc|]);
    try (by apply elem_of_nil in Hin).
  all: injection Hc as -> -> -> ->.
  all: split; [done|]; split; [done|]; split; [by intros ? [= <-]|].
  all: do 3 eexists; split; [reflexivity|]; split; [find_event|].
  all: split; [|reflexivity]; by apply or_default_nonempty.
Qed.

Lemma uploadAvatar_writes_a_fresh_key_witness :
  let r := run (answering quiet) (uploadAvatar signed_in (inr png_file)) signed_in tt in
  let key := "avatars/u1_2024-01-01T00:00:00.000Z.png" in
  let options := {| contentType := None; cacheControl := Some "3600"; upsert := true |} in
  storage_upload "avatars" key "png-bytes" options ∈ calls r
  /\ List.filter is_fetch (calls r) = []
  /\ ("avatars" = "avatars"
      /\ upsert options = true
      /\ (forall f, @inr string File png_file = inr f -> "png-bytes" = file_blob f)
      /\ exists userId timestamp ext,
           truthy (user_id <$> (user <$> session signed_in)) = Some userId
           /\ mkEvent date_now timestamp ∈ trace r
           /\ ext <> ""
           /\ key = String.append "avatars/"
                      (String.append userId
                         (String.append "_"
                            (String.append timestamp (String.append "." ext))))).
Proof.
  intros r key options.
  assert (storage_upload "avatars" key "png-bytes" options ∈ calls r) as Hin
    by (vm_compute; find_event).
  split; [exact Hin|].
  destruct (uploadAvatar_writes_a_fresh_key unit (answering quiet) tt signed_in (inr png_file))
    as (_ & Hfetch & Hup).
  split; [exact (Hfetch png_file eq_refl)|].
  exact (Hup "avatars" key "png-bytes" options Hin).
Defined.

Lemma run_try_catch {St W A} (h : Handler W) (p : Prog St A) (c : Exn -> Prog St A) s w :
  run h (try_catch p c) s w =
  let r1 := run h p s w in
  match outcome r1 with
  | Returned a => mkRun (Returned a) (final r1) (world r1) (trace r1)
  | Thrown e =>
      let r2 := run h (c e) (final r1) (world r1) in
      mkRun (outcome r2) (final r2) (world r2) (trace r1 ++ trace r2)
  end.
Proof.
  revert s w. induction p as [a|e|f p IH|c' k' IH]; intros s w; simpl.
  - done.
  - by destruct (run h (c e) s w).
  - apply IH.
  - rewrite IH. simpl.
    generalize (run h (k' (h c' w).1) s (h c' w).2). by intros [[a|e] f w' t].
Qed.

(** X15. The web file input of the profile screen (profile.tsx, lines
    27-40) never throws.  Without a file, or with a file whose type does
    not start with [image/], its only call is the alert "Please select a
    valid image file." and the hook's state is untouched.  With an image
    it does exactly what [uploadAvatar] does on that file, state and
    calls, and when [uploadAvatar] throws it adds the alert "Failed to
    upload image. Please try again." and returns. *)
Theorem handleFileInputChange_reports_by_alert W (h : Handler W) (w : W) (s : State)
    (file : option ProfileScreen.InputFile) :
  let r := run h (ProfileScreen.handleFileInputChange s file) s w in
  outcome r = Returned tt
  /\ match file with
     | Some f =>
         if startsWith (ProfileScreen.input_type f) "image/" then
           let u := run h (uploadAvatar s (inr (ProfileScreen.input_file f))) s w in
           final r = final u
           /\ calls r = calls u ++
                match outcome u with
                | Returned _ => []
                | Thrown _ => [ui_alert "Failed to upload image. Please try again."]
                end
         else calls r = [ui_alert "Please select a valid image file."] /\ final r = s
     | None => calls r = [ui_alert "Please select a valid image file."] /\ final r = s
     end.
Proof.
  intros r. subst r. unfold ProfileScreen.handleFileInputChange, calls.
  rewrite run_try_catch.
  destruct file as [f|]; cbn [negb].
  - destruct (startsWith (ProfileScreen.input_type f) "image/"); cbn [negb].
    + generalize (run h (uploadAvatar s (inr (ProfileScreen.input_file f))) s w).
      intros [[[]|e] fs ws tr]; simpl; [by rewrite app_nil_r|].
      destruct (h _ ws) as [[] w1]. simpl. by rewrite map_app.
    + simpl. by destruct (h _ w) as [[] w1].
  - simpl. by destruct (h _ w) as [[] w1].
Qed.

(** ** Favorites *)

(** X16. [handleSearch] (lines 91-115) always returns and always lowers
    [loading].  It queries [hubs], [routes] and [stops], in that order,
    with the pattern of the rendered query.  When the three replies carry
    data the results are the three lists concatenated in that order.
    When any reply carries none, the spread at line 109 raises a
    [TypeError]: it is logged to the console, as the last call, and the
    results shown before stay. *)
Theorem handleSearch_concatenates W (h : Handler W) (w w1 w2 w3 : W)
    (s : FavoritesScreen.State) (hubs routes stops : Response (list Item)) :
  h (table_ilike "hubs" (FavoritesScreen.pattern s)) w = (hubs, w1) ->
  h (table_ilike "routes" (FavoritesScreen.pattern s)) w1 = (routes, w2) ->
  h (table_ilike "stops" (FavoritesScreen.pattern s)) w2 = (stops, w3) ->
  let r := run h (FavoritesScreen.handleSearch s) s w in
  let queries :=
    [table_ilike "hubs" (FavoritesScreen.pattern s);
     table_ilike "routes" (FavoritesScreen.pattern s);
     table_ilike "stops" (FavoritesScreen.pattern s)] in
  let shown (results : list Item) :=
    FavoritesScreen.mkState (FavoritesScreen.searchQuery s) results false
      (FavoritesScreen.userFavorites s) in
  outcome r = Returned tt
  /\ match data hubs, data routes, data stops with
     | Some a, Some b, Some c =>
         calls r = queries /\ final r = shown (a ++ b ++ c)
     | _, _, _ =>
         (exists msg,
            calls r = queries ++ [console_error "Error fetching search results:"
                                    (TypeError msg)])
         /\ final r = shown (FavoritesScreen.searchResults s)
     end.
Proof.
  intros Hh Hr Hs r queries shown. subst r queries shown.
  unfold FavoritesScreen.handleSearch, FavoritesScreen.spread3,
    FavoritesScreen.not_iterable, calls. simpl.
  rewrite Hh. simpl. rewrite Hr. simpl. rewrite Hs. simpl.
  destruct (data hubs), (data routes), (data stops); simpl; try done.
  all: destruct (h (console_error _ _) w3) as [[] w4]; simpl.
  all: split; [done|]; split; [by eexists|done].
Qed.

Lemma handleSearch_concatenates_witness :
  (let r := run (answering (finding (Some [hub1]))) (FavoritesScreen.handleSearch favs1)
              favs1 tt in
   outcome r = Returned tt
   /\ calls r = [table_ilike "hubs" "%central%"; table_ilike "routes" "%central%";
                 table_ilike "stops" "%central%"]
   /\ final r = FavoritesScreen.mkState "central" [hub1] false ["hub-1"])
  /\ (let r := run (answering (finding None)) (FavoritesScreen.handleSearch favs1)
                 favs1 tt in
      outcome r = Returned tt
      /\ (exists msg,
            calls r = [table_ilike "hubs" "%central%"; table_ilike "routes" "%central%";
                       table_ilike "stops" "%central%"]
                      ++ [console_error "Error fetching search results:" (TypeError msg)])
      /\ final r = FavoritesScreen.mkState "central" [] false ["hub-1"]).
Proof.
  split.
  - exact (handleSearch_concatenates unit (answering (finding (Some [hub1]))) tt tt tt tt
             favs1 (mkResponse (Some [hub1]) None 200) (mkResponse (Some []) None 200)
             (mkResponse (Some []) None 200) eq_refl eq_refl eq_refl).
  - exact (handleSearch_concatenates unit (answering (finding None)) tt tt tt tt
             favs1 (mkResponse None None 200) (mkResponse (Some []) None 200)
             (mkResponse (Some []) None 200) eq_refl eq_refl eq_refl).
Defined.

Lemma NoDup_without (l : list string) (x : string) :
  NoDup l -> NoDup (FavoritesScreen.without l x).
Proof.
  unfold FavoritesScreen.without. induction l as [|y l IH]; [done|].
  intros Hn. apply NoDup_cons in Hn as [Hy Hn]. simpl.
  destruct (negb (y =? x)%string); [|by apply IH].
  apply NoDup_cons. split; [|by apply IH].
  intros Hin. apply Hy. apply list_elem_of_In, filter_In in Hin as [Hin _].
  by apply list_elem_of_In.
Qed.

(** X17. [toggleFavorite] (lines 117-140) keeps the favorites free of
    duplicates: when the rendered list has none, neither has the list in
    the state afterwards, nor any list it sends to the record store. *)
Theorem toggleFavorite_keeps_favorites_distinct W (h : Handler W) (w : W)
    (s : FavoritesScreen.State) (item : Item) :
  NoDup (FavoritesScreen.userFavorites s) ->
  let r := run h (FavoritesScreen.toggleFavorite s item) s w in
  NoDup (FavoritesScreen.userFavorites (final r))
  /\ forall id favs, profiles_update (patch_favorites favs) id ∈ calls r -> NoDup favs.
Proof.
  intros Hn r.
  assert (NoDup (toggled (FavoritesScreen.userFavorites s) (item_id item))) as Ht.
  { unfold toggled. destruct (includes _ _) eqn:Hi; [by apply NoDup_without|].
    apply NoDup_app. split; [done|]. split; [|apply NoDup_singleton].
    intros y Hy ->%list_elem_of_singleton. by apply includes_false in Hi. }
  destruct (truthy (user_id <$> (user <$> auth_session (fst (h auth_getSession w)))))
    as [userId|] eqn:Hu.
  - destruct (toggleFavorite_run W h w s item userId Hu) as [Hf Hw]. fold r in Hf, Hw.
    split; [by rewrite Hf|]. intros id favs Hin.
    assert (profiles_update (patch_favorites favs) id ∈ writes r) as Hin'.
    { unfold writes. apply list_elem_of_In, filter_In.
      split; [by apply list_elem_of_In|done]. }
    rewrite Hw in Hin'. apply list_elem_of_singleton in Hin'. by injection Hin' as -> ->.
  - destruct (toggleFavorite_no_session W h w s item Hu) as [Hf Hc]. fold r in Hf, Hc.
    split; [by rewrite Hf|]. intros id favs Hin. rewrite Hc in Hin.
    apply list_elem_of_singleton in Hin. discriminate.
Qed.

Lemma toggleFavorite_keeps_favorites_distinct_witness :
  let r := run (answering signed_in_service) (FavoritesScreen.toggleFavorite favs1 hub1)
             favs1 tt in
  NoDup ["hub-1"]
  /\ NoDup (FavoritesScreen.userFavorites (final r))
  /\ forall id favs, profiles_update (patch_favorites favs) id ∈ calls r -> NoDup favs.
Proof.
  split; [apply NoDup_singleton|].
  apply (toggleFavorite_keeps_favorites_distinct unit (answering signed_in_service) tt
           favs1 hub1).
  apply NoDup_singleton.
Defined.

Lemma toggleFavorite_run_from W (h : Handler W) (w : W)
    (render live : FavoritesScreen.State) (item : Item) (userId : string) :
  truthy (user_id <$> (user <$> auth_session (fst (h auth_getSession w)))) = Some userId ->
  let r := run h (FavoritesScreen.toggleFavorite render item) live w in
  final r =
    FavoritesScreen.mkState (FavoritesScreen.searchQuery live)
      (FavoritesScreen.searchResults live) (FavoritesScreen.loading live)
      (toggled (FavoritesScreen.userFavorites render) (item_id item))
  /\ writes r =
     [profiles_update
        (patch_favorites (toggled (FavoritesScreen.userFavorites render) (item_id item)))
        userId].
Proof.
  intros Hu r. subst r. unfold FavoritesScreen.toggleFavorite, toggled, writes, calls. simpl.
  destruct (h auth_getSession w) as [got w1]. simpl in *. rewrite Hu.
  destruct (includes (FavoritesScreen.userFavorites render) (item_id item)); crack h; done.
Qed.

(** X18. [toggleFavorite] computes the new list from the favorites of the
    render it was created in (line 123), not from the live state.  Run a
    second time from the same render, before the screen re-rendered, it
    does not toggle back: it writes the same list again and leaves the
    state as the first run left it, so the item's membership stays
    flipped once. *)
Theorem toggleFavorite_from_same_render_repeats W (h : Handler W) (w : W)
    (s : FavoritesScreen.State) (item : Item) (userId userId' : string) :
  truthy (user_id <$> (user <$> auth_session (fst (h auth_getSession w)))) = Some userId ->
  let r := run h (FavoritesScreen.toggleFavorite s item) s w in
  truthy (user_id <$> (user <$> auth_session (fst (h auth_getSession (world r)))))
    = Some userId' ->
  let again := run h (FavoritesScreen.toggleFavorite s item) (final r) (world r) in
  final again = final r
  /\ writes again
     = [profiles_update (patch_favorites (FavoritesScreen.userFavorites (final r))) userId']
  /\ (item_id item ∈ FavoritesScreen.userFavorites (final again)
      <-> item_id item ∉ FavoritesScreen.userFavorites s).
Proof.
  intros Hu r Hu' again.
  destruct (toggleFavorite_run_from W h w s s item userId Hu) as [Hf _]. fold r in Hf.
  destruct (toggleFavorite_run_from W h (world r) s (final r) item userId' Hu') as [Hf2 Hw2].
  fold again in Hf2, Hw2.
  rewrite Hf2, Hw2, Hf. simpl. split; [done|]. split; [done|]. apply toggled_flips.
Qed.

Lemma toggleFavorite_from_same_render_repeats_witness :
  let r := run (answering signed_in_service) (FavoritesScreen.toggleFavorite favs1 hub1)
             favs1 tt in
  let again := run (answering signed_in_service) (FavoritesScreen.toggleFavorite favs1 hub1)
                 (final r) (world r) in
  final again = final r
  /\ writes again
     = [profiles_update (patch_favorites (FavoritesScreen.userFavorites (final r))) "u1"]
  /\ (item_id hub1 ∈ FavoritesScreen.userFavorites (final again)
      <-> item_id hub1 ∉ FavoritesScreen.userFavorites favs1).
Proof.
  exact (toggleFavorite_from_same_render_repeats unit (answering signed_in_service) tt
           favs1 hub1 "u1" "u1" eq_refl eq_refl).
Defined.

(** X19. The load of the favorites on mount (lines 76-89), for a signed-in
    user: when the query returns no row, or a row whose [favorites] is
    [null], the screen shows no favorite and nothing is thrown or logged;
    the two reads are all it does. *)
Theorem fetchFavorites_unreadable_shows_none W (h : Handler W) (w w1 w2 : W)
    (s : FavoritesScreen.State) (got : AuthSession) (userId : string)
    (resp : Response Profile.t) :
  h auth_getSession w = (got, w1) ->
  truthy (user_id <$> (user <$> auth_session got)) = Some userId ->
  h (profiles_select_single "favorites" userId) w1 = (resp, w2) ->
  (data resp = None \/ exists p, data resp = Some p /\ Profile.favorites p = None) ->
  let r := run h FavoritesScreen.fetchFavorites s w in
  outcome r = Returned tt
  /\ calls r = [auth_getSession; profiles_select_single "favorites" userId]
  /\ final r = FavoritesScreen.mkState (FavoritesScreen.searchQuery s)
                 (FavoritesScreen.searchResults s) (FavoritesScreen.loading s) [].
Proof.
  intros Hg Hu Hr Hd r. subst r. unfold FavoritesScreen.fetchFavorites, calls. simpl.
  rewrite Hg. simpl. rewrite Hu. simpl. rewrite Hr. simpl.
  destruct Hd as [-> | (p & -> & Hp)]; [done|]. by rewrite Hp.
Qed.

Lemma fetchFavorites_unreadable_shows_none_witness :
  let r := run (answering signed_in_service) FavoritesScreen.fetchFavorites favs1 tt in
  signed_in_service auth_getSession = {| auth_session := Some alice; auth_error := None |}
  /\ outcome r = Returned tt
  /\ calls r = [auth_getSession; profiles_select_single "favorites" "u1"]
  /\ final r = FavoritesScreen.mkState "central" [] false [].
Proof.
  split; [reflexivity|].
  apply (fetchFavorites_unreadable_shows_none unit (answering signed_in_service) tt tt tt
           favs1 {| auth_session := Some alice; auth_error := None |} "u1"
           (mkResponse None None 200) eq_refl eq_refl eq_refl).
  by left.
Defined.

(** X20. Round trip against the reference store, for a user who is signed
    in at the auth service and has a row: after [toggleFavorite] the
    stored [favorites] are the list the screen shows, and a screen that
    mounts afterwards loads exactly that list, which is the rendered list
    with the item toggled. *)
Theorem toggleFavorite_then_fetchFavorites (w : Backend.t) (s fresh : FavoritesScreen.State)
    (item : Item) (sess : Session) (userId : string) (row : Profile.t) :
  Backend.faults w = [] ->
  auth_session (Backend.ambient w auth_getSession) = Some sess ->
  truthy (Some (uid sess)) = Some userId ->
  Backend.profiles w !! userId = Some row ->
  let r := run Backend.handler (FavoritesScreen.toggleFavorite s item) s w in
  let mounted := run Backend.handler FavoritesScreen.fetchFavorites fresh (world r) in
  Profile.favorites <$> Backend.profiles (world r) !! userId
    = Some (Some (FavoritesScreen.userFavorites (final r)))
  /\ FavoritesScreen.userFavorites (final mounted) = FavoritesScreen.userFavorites (final r)
  /\ FavoritesScreen.userFavorites (final r)
     = toggled (FavoritesScreen.userFavorites s) (item_id item).
Proof.
  intros Hf Ha Hu Hrow r mounted. subst mounted r.
  unfold FavoritesScreen.toggleFavorite, FavoritesScreen.fetchFavorites, toggled, uid in *.
  simpl. rewrite Ha. simpl. rewrite Hu.
  destruct (includes (FavoritesScreen.userFavorites s) (item_id item)); simpl.
  all: rewrite (update_ok _ _ w Hf); simpl; rewrite Ha; simpl; rewrite Hu; simpl.
  all: rewrite select_single_ok by done; simpl.
  all: rewrite lookup_alter_eq, Hrow; simpl; done.
Qed.

Lemma toggleFavorite_then_fetchFavorites_witness :
  let r := run Backend.handler (FavoritesScreen.toggleFavorite first_render hub1)
             first_render favorites_world in
  let mounted := run Backend.handler FavoritesScreen.fetchFavorites first_render (world r) in
  Profile.favorites <$> Backend.profiles (world r) !! "u1"
    = Some (Some (FavoritesScreen.userFavorites (final r)))
  /\ FavoritesScreen.userFavorites (final mounted) = FavoritesScreen.userFavorites (final r)
  /\ FavoritesScreen.userFavorites (final r) = ["hub-1"].
Proof.
  apply (toggleFavorite_then_fetchFavorites favorites_world first_render first_render hub1
           alice "u1" row50); by vm_compute.
Defined.
